(** * Banking-transaction ETL: validator, cleaner, transformer

    A shallow embedding of [etl/validator.py], [etl/cleaner.py] and
    [etl/transformer.py].  Python values are an inductive type, a record
    (a [dict]) is a finite map from field names to values, exceptions are
    an error monad, and the one place where a dictionary is mutated in
    place ([validate_transaction]) threads the dictionary as state.

    Text is ASCII: [str.strip], [str.upper], the [\d] of [re] and the
    digits of [float] are modelled on the code points below 128. *)

From Stdlib Require Import ZArith QArith Qpower Bool Ascii String List Lia.
From Stdlib Require Import Rbase Rbasic_fun Rpower Lra.
From Stdlib Require Import Floats.SpecFloat.
From stdpp Require Import base option gmap strings.

Local Open Scope string_scope.
Local Open Scope Z_scope.

(** ** Python strings *)

Module PyStr.

(** [str.isspace] on one ASCII character: TAB, LF, VT, FF, CR, the four
    separators FS GS RS US, and the space. *)
Definition is_space (c : ascii) : bool :=
  let n := N_of_ascii c in
  ((9 <=? n) && (n <=? 13) || (28 <=? n) && (n <=? 32))%N.

(** The [isspace] of C, which [float] uses on the ends of its argument:
    TAB, LF, VT, FF, CR and the space, without the four separators. *)
Definition is_c_space (c : ascii) : bool :=
  let n := N_of_ascii c in ((9 <=? n) && (n <=? 13) || (n =? 32))%N.

Definition is_digit (c : ascii) : bool :=
  let n := N_of_ascii c in ((48 <=? n) && (n <=? 57))%N.

Definition digit_val (c : ascii) : Z := Z.of_N (N_of_ascii c) - 48.

Definition is_lower (c : ascii) : bool :=
  let n := N_of_ascii c in ((97 <=? n) && (n <=? 122))%N.

Definition is_upper (c : ascii) : bool :=
  let n := N_of_ascii c in ((65 <=? n) && (n <=? 90))%N.

Definition upper_char (c : ascii) : ascii :=
  if is_lower c then ascii_of_N (N_of_ascii c - 32) else c.

Definition lower_char (c : ascii) : ascii :=
  if is_upper c then ascii_of_N (N_of_ascii c + 32) else c.

(** [s.upper()] and [s.lower()]. *)
Fixpoint upper (s : string) : string :=
  match s with
  | EmptyString => EmptyString
  | String c r => String (upper_char c) (upper r)
  end.

Fixpoint lower (s : string) : string :=
  match s with
  | EmptyString => EmptyString
  | String c r => String (lower_char c) (lower r)
  end.

Fixpoint lstrip (s : string) : string :=
  match s with
  | EmptyString => EmptyString
  | String c r => if is_space c then lstrip r else s
  end.

Fixpoint rstrip (s : string) : string :=
  match s with
  | EmptyString => EmptyString
  | String c r =>
      match rstrip r with
      | EmptyString => if is_space c then EmptyString else String c EmptyString
      | r' => String c r'
      end
  end.

(** [s.strip()]: leading and trailing whitespace removed. *)
Definition strip (s : string) : string := rstrip (lstrip s).

(** Truth value of a string: [not s] holds exactly for the empty one. *)
Definition nonempty (s : string) : bool :=
  match s with EmptyString => false | _ => true end.

Fixpoint all_chars (p : ascii -> bool) (s : string) : bool :=
  match s with
  | EmptyString => true
  | String c r => p c && all_chars p r
  end.

(** The last character of a string, when there is one. *)
Fixpoint last_char (s : string) : option ascii :=
  match s with
  | EmptyString => None
  | String c EmptyString => Some c
  | String _ r => last_char r
  end.

Definition first_char (s : string) : option ascii :=
  match s with EmptyString => None | String c _ => Some c end.

End PyStr.

(** ** Exceptions and results *)

(** The exceptions the three modules raise or catch. *)
Inductive exn : Type :=
  | InvalidTransactionIDError
  | InvalidDateFormatError
  | InvalidCurrencyError
  | InvalidAmountError
  | ValueError
  | TypeError
  | AttributeError.

Inductive result (A : Type) : Type :=
  | Ok (a : A)
  | Raise (e : exn).
Arguments Ok {A} a.
Arguments Raise {A} e.

Definition rbind {A B} (r : result A) (k : A -> result B) : result B :=
  match r with Ok a => k a | Raise e => Raise e end.

Notation "x <-! r ; k" := (rbind r (fun x => k))
  (at level 100, r at next level, right associativity).

(** ** Calendar dates: [datetime.date], [strptime], [strftime] *)

Module PyDate.
Import PyStr.

Record date : Type := Date { year : Z; month : Z; day : Z }.

Definition is_leap (y : Z) : bool :=
  (y mod 4 =? 0) && (negb (y mod 100 =? 0) || (y mod 400 =? 0)).

Definition days_in_month (y m : Z) : Z :=
  if m =? 2 then (if is_leap y then 29 else 28)
  else if (m =? 4) || (m =? 6) || (m =? 9) || (m =? 11) then 30
  else 31.

(** The range checks of the [datetime] constructor. *)
Definition valid_ymd (y m d : Z) : bool :=
  (1 <=? y) && (y <=? 9999) && (1 <=? m) && (m <=? 12) &&
  (1 <=? d) && (d <=? days_in_month y m).

Definition make_date (y m d : Z) : option date :=
  if valid_ymd y m d then Some (Date y m d) else None.

(** The directives and literals of a [strptime] format. *)
Inductive directive : Type :=
  | Dir_Y
  | Dir_m
  | Dir_d
  | Lit (c : ascii).

(** Values of the groups [Y], [m], [d]; [strptime] starts from 1900-01-01. *)
Record groups : Type := Groups { gY : Z; gm : Z; gd : Z }.

Definition no_groups : groups := Groups 1900 1 1.

Definition between (lo hi c : ascii) : bool :=
  ((N_of_ascii lo <=? N_of_ascii c) && (N_of_ascii c <=? N_of_ascii hi))%N.

Definition orelse {A} (x y : option A) : option A :=
  match x with Some _ => x | None => y end.

(** Two characters of the subject, the first satisfying [p] and the second
    [q], then the rest of the pattern on what follows. *)
Definition two {A} (p q : ascii -> bool) (s : string)
    (k : Z -> string -> option A) : option A :=
  match s with
  | String a (String b r) =>
      if p a && q b then k (if is_digit a then 10 * digit_val a + digit_val b
                            else digit_val b) r
      else None
  | _ => None
  end.

Definition one {A} (p : ascii -> bool) (s : string)
    (k : Z -> string -> option A) : option A :=
  match s with
  | String a r => if p a then k (digit_val a) r else None
  | _ => None
  end.

(** The regular expression [strptime] builds from a format, run as
    [re.match] runs it: alternatives in order, backtracking into the next
    one when the rest of the pattern fails.
    - [%Y] is [\d\d\d\d];
    - [%m] is [1[0-2]|0[1-9]|[1-9]];
    - [%d] is [3[0-1]|[1-2]\d|0[1-9]|[1-9]| [1-9]]. *)
Fixpoint re_match (fmt : list directive) (s : string) (g : groups)
    : option (groups * string) :=
  match fmt with
  | [] => Some (g, s)
  | Lit c :: fmt' =>
      match s with
      | String a r => if Ascii.eqb a c then re_match fmt' r g else None
      | EmptyString => None
      end
  | Dir_Y :: fmt' =>
      match s with
      | String a (String b (String c (String d r))) =>
          if is_digit a && is_digit b && is_digit c && is_digit d
          then re_match fmt' r
                 (Groups (1000 * digit_val a + 100 * digit_val b
                          + 10 * digit_val c + digit_val d) (gm g) (gd g))
          else None
      | _ => None
      end
  | Dir_m :: fmt' =>
      let k := fun v r => re_match fmt' r (Groups (gY g) v (gd g)) in
      orelse (two (Ascii.eqb "1") (between "0" "2") s k)
     (orelse (two (Ascii.eqb "0") (between "1" "9") s k)
             (one (between "1" "9") s k))
  | Dir_d :: fmt' =>
      let k := fun v r => re_match fmt' r (Groups (gY g) (gm g) v) in
      orelse (two (Ascii.eqb "3") (between "0" "1") s k)
     (orelse (two (between "1" "2") is_digit s k)
     (orelse (two (Ascii.eqb "0") (between "1" "9") s k)
     (orelse (one (between "1" "9") s k)
             (two (Ascii.eqb " ") (between "1" "9") s k))))
  end.

(** [datetime.strptime(s, fmt)]; [None] stands for [ValueError]: no match,
    unconverted data after the match, or a date out of range. *)
Definition strptime (s : string) (fmt : list directive) : option date :=
  match re_match fmt s no_groups with
  | Some (g, EmptyString) => make_date (gY g) (gm g) (gd g)
  | _ => None
  end.

(** ['%Y-%m-%d'] and ['%d/%m/%Y']. *)
Definition fmt_iso : list directive := [Dir_Y; Lit "-"; Dir_m; Lit "-"; Dir_d].
Definition fmt_dmy : list directive := [Dir_d; Lit "/"; Dir_m; Lit "/"; Dir_Y].

Definition digit_char (n : Z) : ascii := ascii_of_N (Z.to_N (48 + n mod 10)).

Definition pad2 (n : Z) (rest : string) : string :=
  String (digit_char (n / 10)) (String (digit_char n) rest).

Definition pad4 (n : Z) (rest : string) : string :=
  String (digit_char (n / 1000)) (String (digit_char (n / 100))
    (String (digit_char (n / 10)) (String (digit_char n) rest))).

(** The year as [%Y] prints it.  [strftime] hands the format to the C
    library, and the C library of Linux prints the year as a plain decimal
    number: 999 is [999], not [0999]. *)
Definition unpadded (n : Z) (rest : string) : string :=
  if n <? 10 then String (digit_char n) rest
  else if n <? 100
  then String (digit_char (n / 10)) (String (digit_char n) rest)
  else if n <? 1000
  then String (digit_char (n / 100))
         (String (digit_char (n / 10)) (String (digit_char n) rest))
  else pad4 n rest.

(** [d.isoformat()], which is [str(d)]: written by Python itself, the year
    on four digits, month and day on two. *)
Definition isoformat (d : date) : string :=
  pad4 (year d) (String "-" (pad2 (month d) (String "-" (pad2 (day d) "")))).

(** [d.strftime('%Y-%m-%d')]: the year as the C library prints it, month
    and day on two digits. *)
Definition strftime_iso (d : date) : string :=
  unpadded (year d)
    (String "-" (pad2 (month d) (String "-" (pad2 (day d) "")))).

Definition days_before_year (y : Z) : Z :=
  let p := y - 1 in p * 365 + p / 4 - p / 100 + p / 400.

Fixpoint days_before_month_aux (y : Z) (n : nat) : Z :=
  match n with
  | O => 0
  | S k => days_before_month_aux y k + days_in_month y (Z.of_nat (S k))
  end.

Definition days_before_month (y m : Z) : Z :=
  days_before_month_aux y (Z.to_nat (m - 1)).

(** [d.toordinal()] and [d.weekday()] (Monday is 0). *)
Definition toordinal (d : date) : Z :=
  days_before_year (year d) + days_before_month (year d) (month d) + day d.

Definition weekday (d : date) : Z := (toordinal d + 6) mod 7.

End PyDate.

(** ** Floating-point numbers: [float] *)

Module PyFloat.
Import PyStr.

(** A Python [float] is an IEEE 754 binary64 number. *)
Abbreviation float := spec_float.

Definition prec : Z := 53.
Definition emax : Z := 1024.

Definition nan : float := S754_nan.
Definition inf (neg : bool) : float := S754_infinity neg.

(** The decimal [(-1)^neg * m * 10^e] rounded to the nearest binary64
    number, ties to even, as [float] rounds a decimal literal. *)
Definition of_decimal (neg : bool) (m e : Z) : float :=
  match m with
  | Zpos p =>
      if 0 <=? e then binary_round prec emax neg (Z.to_pos (Zpos p * 10 ^ e)) 0
      else SFdiv prec emax (S754_finite neg p 0)
                           (S754_finite false (Z.to_pos (10 ^ (- e))) 0)
  | _ => S754_zero neg
  end.

(** [float(True)] and [float(False)]. *)
Definition of_bool (b : bool) : float :=
  if b then of_decimal false 1 0 else S754_zero false.

(** The rest of a [digitpart]: digits, each optionally preceded by one
    underscore.  Returns the accumulated value, the number of digits read
    and the unread text. *)
Fixpoint scan_more (acc n : Z) (s : string) : Z * Z * string :=
  match s with
  | String c r =>
      if is_digit c then scan_more (10 * acc + digit_val c) (n + 1) r
      else if Ascii.eqb c "_" then
        match r with
        | String d r' =>
            if is_digit d then scan_more (10 * acc + digit_val d) (n + 1) r'
            else (acc, n, s)
        | EmptyString => (acc, n, s)
        end
      else (acc, n, s)
  | EmptyString => (acc, n, s)
  end.

(** [digitpart ::= digit (["_"] digit)*], continuing the value [acc]. *)
Definition scan_digitpart (acc : Z) (s : string) : option (Z * Z * string) :=
  match s with
  | String c r =>
      if is_digit c then Some (scan_more (10 * acc + digit_val c) 1 r) else None
  | EmptyString => None
  end.

(** [number ::= [digitpart] "." digitpart | digitpart ["."]]: the digits
    read as one integer, and how many of them follow the point. *)
Definition scan_number (s : string) : option (Z * Z * string) :=
  match scan_digitpart 0 s with
  | Some (ip, _, String "." r) =>
      match scan_digitpart ip r with
      | Some (m, nf, r') => Some (m, nf, r')
      | None => Some (ip, 0, r)
      end
  | Some (ip, _, r) => Some (ip, 0, r)
  | None =>
      match s with
      | String "." r => scan_digitpart 0 r
      | _ => None
      end
  end.

Definition scan_sign (s : string) : bool * string :=
  match s with
  | String "-" r => (true, r)
  | String "+" r => (false, r)
  | _ => (false, s)
  end.

(** [exponent ::= ("e" | "E") [sign] digitpart]; no exponent is exponent 0. *)
Definition scan_exponent (s : string) : option (Z * string) :=
  match s with
  | String c r =>
      if Ascii.eqb (lower_char c) "e" then
        let '(neg, r1) := scan_sign r in
        match scan_digitpart 0 r1 with
        | Some (x, _, r2) => Some (if neg then - x else x, r2)
        | None => None
        end
      else Some (0, s)
  | EmptyString => Some (0, s)
  end.

(** The whitespace of C dropped from the left and from the right. *)
Fixpoint skip_left (s : string) : string :=
  match s with
  | EmptyString => EmptyString
  | String c r => if is_c_space c then skip_left r else s
  end.

Fixpoint skip_right (s : string) : string :=
  match s with
  | EmptyString => EmptyString
  | String c r =>
      match skip_right r with
      | EmptyString =>
          if is_c_space c then EmptyString else String c EmptyString
      | r' => String c r'
      end
  end.

(** [float(s)] for a string: the whitespace of C dropped at both ends, an
    optional sign, then [inf], [infinity] or [nan] in any case, or a
    decimal number with an optional exponent; the whole text has to be
    consumed.  [None] stands for [ValueError]. *)
Definition of_string (s : string) : option float :=
  let '(neg, body) := scan_sign (skip_right (skip_left s)) in
  let word := lower body in
  if String.eqb word "inf" || String.eqb word "infinity" then Some (inf neg)
  else if String.eqb word "nan" then Some nan
  else
    match scan_number body with
    | Some (m, nf, r) =>
        match scan_exponent r with
        | Some (x, EmptyString) => Some (of_decimal neg m (x - nf))
        | _ => None
        end
    | None => None
    end.

(** Comparison of a float with a Python [int]: exact, and undefined
    (every ordering test false) on NaN. *)
Definition compare_int (x : float) (n : Z) : option comparison :=
  match x with
  | S754_nan => None
  | S754_infinity s => Some (if s then Lt else Gt)
  | S754_zero _ => Some (0 ?= n)
  | S754_finite s m e =>
      let v := cond_Zopp s (Zpos m) in
      Some (if 0 <=? e then v * 2 ^ e ?= n else v ?= n * 2 ^ (- e))
  end.

(** [x < n], [x <= n], [x > n], [x >= n] for an [int] [n]. *)
Definition lt_int (x : float) (n : Z) : bool :=
  match compare_int x n with Some Lt => true | _ => false end.
Definition le_int (x : float) (n : Z) : bool :=
  match compare_int x n with Some Lt | Some Eq => true | _ => false end.
Definition gt_int (x : float) (n : Z) : bool :=
  match compare_int x n with Some Gt => true | _ => false end.
Definition ge_int (x : float) (n : Z) : bool :=
  match compare_int x n with Some Gt | Some Eq => true | _ => false end.

(** The rational number [v * 2^e], the value of a finite float. *)
Definition dyadic (v e : Z) : Q := (inject_Z v * 2 ^ e)%Q.

(** The order between what a float stands for and an integer: a number
    on the rational line, one of the two infinities, or, for NaN, nothing
    that can be compared. *)
Definition exceeds (x : float) (n : Z) : Prop :=
  match x with
  | S754_nan => False
  | S754_infinity s => s = false
  | S754_zero _ => (inject_Z n < 0)%Q
  | S754_finite s m e => (inject_Z n < dyadic (cond_Zopp s (Zpos m)) e)%Q
  end.

Definition at_most (x : float) (n : Z) : Prop :=
  match x with
  | S754_nan => False
  | S754_infinity s => s = true
  | S754_zero _ => (0 <= inject_Z n)%Q
  | S754_finite s m e => (dyadic (cond_Zopp s (Zpos m)) e <= inject_Z n)%Q
  end.

Definition at_least (x : float) (n : Z) : Prop :=
  match x with
  | S754_nan => False
  | S754_infinity s => s = false
  | S754_zero _ => (inject_Z n <= 0)%Q
  | S754_finite s m e => (inject_Z n <= dyadic (cond_Zopp s (Zpos m)) e)%Q
  end.

(** Truth value of a float: zero of either sign is false, NaN is true. *)
Definition truthy (x : float) : bool :=
  match x with S754_zero _ => false | _ => true end.


End PyFloat.

(** ** Python values and records *)

Import PyStr PyDate PyFloat.

(** The values a record holds between the CSV reader and the output of the
    transformer: [None], [bool], [float], [str] and [datetime.date]. *)
Inductive value : Type :=
  | VNone
  | VBool (b : bool)
  | VFloat (x : float)
  | VStr (s : string)
  | VDate (d : date).

(** A record is a [dict] from field names to values. *)
Abbreviation record := (gmap string value).

(** [bool(v)], the test of [if v:] and [not v]. *)
Definition truthy (v : value) : bool :=
  match v with
  | VNone => false
  | VBool b => b
  | VFloat x => PyFloat.truthy x
  | VStr s => nonempty s
  | VDate _ => true
  end.

(** [isinstance(v, str)]. *)
Definition is_str (v : value) : bool :=
  match v with VStr _ => true | _ => false end.

(** [float(v)]: a string is parsed, a float is itself, a bool is 1.0 or
    0.0, [None] and dates are a [TypeError]. *)
Definition py_float (v : value) : result float :=
  match v with
  | VStr s =>
      match PyFloat.of_string s with
      | Some x => Ok x
      | None => Raise ValueError
      end
  | VFloat x => Ok x
  | VBool b => Ok (PyFloat.of_bool b)
  | VNone | VDate _ => Raise TypeError
  end.

(** [s in names] for a list or a set of string constants. *)
Definition mem (s : string) (names : list string) : bool :=
  existsb (String.eqb s) names.

(** [d.get(key, default)]. *)
Definition dict_get (d : record) (key : string) (dflt : value) : value :=
  default dflt (d !! key).

(** ** etl/validator.py *)

Definition VALID_CURRENCIES : list string := ["IDR"; "USD"; "SGD"].
Definition VALID_DIRECTIONS : list string := ["DEBIT"; "CREDIT"].
Definition VALID_ACCOUNT_TYPES : list string :=
  ["SAVINGS"; "CURRENT"; "CREDIT_CARD"; "LOAN"].
Definition ANOMALY_THRESHOLD : Z := 10000000.

(** [n] characters matching [\d], then the rest. *)
Fixpoint match_digits (n : nat) (s : string) : option string :=
  match n with
  | O => Some s
  | S k =>
      match s with
      | String c r => if is_digit c then match_digits k r else None
      | EmptyString => None
      end
  end.

(** The characters of [lit], then the rest. *)
Fixpoint match_literal (lit s : string) : option string :=
  match lit with
  | EmptyString => Some s
  | String c lit' =>
      match s with
      | String a r => if Ascii.eqb a c then match_literal lit' r else None
      | EmptyString => None
      end
  end.

(** [re.match(TRANSACTION_ID_PATTERN, s)] for the pattern [^TXN\d{7}$];
    [$] matches at the end of the text and before a final newline. *)
Definition match_transaction_id_pattern (s : string) : bool :=
  match match_literal "TXN" s with
  | Some r =>
      match match_digits 7 r with
      | Some rest => String.eqb rest "" || String.eqb rest (String "010" "")
      | None => false
      end
  | None => false
  end.

Definition validate_transaction_id (transaction_id : value) : result bool :=
  match transaction_id with
  | VStr s =>
      if negb (truthy transaction_id) then Raise InvalidTransactionIDError
      else if negb (match_transaction_id_pattern (strip s))
      then Raise InvalidTransactionIDError
      else Ok true
  | _ => Raise InvalidTransactionIDError
  end.

Definition validate_date (date_str : value) : result bool :=
  match date_str with
  | VStr s =>
      if negb (truthy date_str) then Raise InvalidDateFormatError
      else
        let date_str := strip s in
        match strptime date_str fmt_iso with
        | Some _ => Ok true
        | None =>
            match strptime date_str fmt_dmy with
            | Some _ => Ok true
            | None => Raise InvalidDateFormatError
            end
        end
  | _ => Raise InvalidDateFormatError
  end.

(** [v is None or (isinstance(v, str) and not v.strip())]. *)
Definition none_or_blank (v : value) : bool :=
  match v with
  | VNone => true
  | VStr s => negb (nonempty (strip s))
  | _ => false
  end.

Definition validate_amount (amount : value) : result bool :=
  if none_or_blank amount then Raise InvalidAmountError
  else
    match py_float amount with
    | Ok amount_float =>
        if lt_int amount_float 0 then Raise InvalidAmountError else Ok true
    | Raise ValueError | Raise TypeError => Raise InvalidAmountError
    | Raise e => Raise e
    end.

Definition validate_currency (currency : value) : result bool :=
  match currency with
  | VStr s =>
      if negb (truthy currency) then Raise InvalidCurrencyError
      else
        let currency_clean := upper (strip s) in
        if negb (mem currency_clean VALID_CURRENCIES)
        then Raise InvalidCurrencyError
        else Ok true
  | _ => Raise InvalidCurrencyError
  end.

(** The two optional checks only log a warning and return [False]. *)
Definition validate_direction (direction : value) : bool :=
  match direction with
  | VStr s =>
      if truthy direction
      then (if negb (mem (upper (strip s)) VALID_DIRECTIONS) then false else true)
      else true
  | _ => true
  end.

Definition validate_account_type (account_type : value) : bool :=
  match account_type with
  | VStr s =>
      if truthy account_type
      then (if negb (mem (upper (strip s)) VALID_ACCOUNT_TYPES) then false
            else true)
      else true
  | _ => true
  end.

Definition check_amount_anomaly (amount : value) : result bool :=
  x <-! py_float amount; Ok (gt_int x ANOMALY_THRESHOLD).

(** [validate_transaction] writes into the dictionary it is given and
    returns that same dictionary: a computation is a function from the
    dictionary's content to an outcome and the content afterwards. *)
Definition M (A : Type) : Type := record -> result A * record.

Definition mret {A} (a : A) : M A := fun d => (Ok a, d).

Definition mbind {A B} (m : M A) (k : A -> M B) : M B :=
  fun d => match m d with
           | (Ok a, d') => k a d'
           | (Raise e, d') => (Raise e, d')
           end.

Definition lift {A} (r : result A) : M A := fun d => (r, d).

(** [transaction.get(key, dflt)] and [transaction[key] = v]. *)
Definition get (key : string) (dflt : value) : M value :=
  fun d => (Ok (dict_get d key dflt), d).

Definition set_item (key : string) (v : value) : M unit :=
  fun d => (Ok tt, <[key := v]> d).

Notation "x <-- m ;; k" := (mbind m (fun x => k))
  (at level 100, m at next level, right associativity).

(** The result [Ok tt] stands for [return transaction]: the caller gets
    back the dictionary it passed, whose content is the second component.
    The default of the last [get] is the int [0], written as the float it
    converts to. *)
Definition validate_transaction : M unit :=
  v <-- get "transaction_id" (VStr "") ;;
  _ <-- lift (validate_transaction_id v) ;;
  v <-- get "transaction_date" (VStr "") ;;
  _ <-- lift (validate_date v) ;;
  v <-- get "amount" VNone ;;
  _ <-- lift (validate_amount v) ;;
  v <-- get "currency" (VStr "") ;;
  _ <-- lift (validate_currency v) ;;
  v <-- get "direction" (VStr "") ;;
  _ <-- mret (validate_direction v) ;;
  v <-- get "account_type" (VStr "") ;;
  _ <-- mret (validate_account_type v) ;;
  v <-- get "amount" (VFloat (S754_zero false)) ;;
  anomaly <-- lift (check_amount_anomaly v) ;;
  set_item "amount_anomaly" (VBool anomaly).

Definition valid_transaction : record :=
  {[ "transaction_id" := VStr "TXN0000001";
     "transaction_date" := VStr "2024-02-21";
     "customer_id" := VStr "CUST00001";
     "account_id" := VStr "ACC00001";
     "amount" := VStr "5000.50";
     "currency" := VStr "IDR";
     "direction" := VStr "DEBIT";
     "account_type" := VStr "SAVINGS" ]}.

(** The fixture after [validate_transaction], and after [clean_transaction]
    on top of it: the flag is added, the amount becomes the float of its
    text. *)
Definition validated_transaction : record :=
  <["amount_anomaly" := VBool false]> valid_transaction.

Definition cleaned_transaction : record :=
  <["amount" := VFloat (S754_finite false 5498107894693888 (-40))]>
    validated_transaction.

(** Stand-ins for the two library functions that the cleaner and the
    transformer take as given, for running them on concrete records; the
    records used pass no float to [str], and nothing below depends on the
    digits of a logarithm. *)
Definition sample_repr (x : float) : string := "0.0".
Definition sample_log (x : float) : float := x.


(** ** etl/cleaner.py and etl/transformer.py *)

Section Etl.

(** Two library functions are taken as given: [repr] of a float, which
    [str(x)] returns for a float [x], and the logarithm of the C library,
    which [math.log] calls on a positive finite float. *)
Variable float_repr : float -> string.
Variable libm_log : float -> float.

(** [str(v)]. *)
Definition py_str (v : value) : string :=
  match v with
  | VNone => "None"
  | VBool b => if b then "True" else "False"
  | VFloat x => float_repr x
  | VStr s => s
  | VDate d => isoformat d
  end.

Definition of_opt_str (o : option string) : value :=
  match o with Some s => VStr s | None => VNone end.

Definition of_opt_float (o : option float) : value :=
  match o with Some x => VFloat x | None => VNone end.

Definition of_opt_date (o : option date) : value :=
  match o with Some d => VDate d | None => VNone end.

Definition trim_whitespace (v : value) : value :=
  match v with
  | VStr s => VStr (strip s)
  | _ => v
  end.

Definition normalize_date (date_str : value) : option string :=
  if negb (truthy date_str) then None
  else
    let date_str := strip (py_str date_str) in
    match strptime date_str fmt_iso with
    | Some dt => Some (strftime_iso dt)
    | None =>
        match strptime date_str fmt_dmy with
        | Some dt => Some (strftime_iso dt)
        | None => None
        end
    end.

Definition normalize_currency (currency : value) : option string :=
  if negb (truthy currency) then None
  else
    let valid_currencies := ["IDR"; "USD"; "SGD"] in
    let currency_clean := upper (strip (py_str currency)) in
    if negb (mem currency_clean valid_currencies) then None
    else Some currency_clean.

Definition clean_numeric (v : value) : result (option float) :=
  if none_or_blank v then Ok None
  else
    match py_float v with
    | Ok x => Ok (Some x)
    | Raise ValueError | Raise TypeError => Ok None
    | Raise e => Raise e
    end.

Definition clean_merchant_category (merchant_category : value) : string :=
  if negb (truthy merchant_category)
     || negb (nonempty (strip (py_str merchant_category)))
  then "Unknown"
  else strip (py_str merchant_category).

(** [v.upper()]: only a string has the method. *)
Definition upper_method (v : value) : result value :=
  match v with
  | VStr s => Ok (VStr (upper s))
  | _ => Raise AttributeError
  end.

(** The body of the loop of [clean_transaction]: the value stored under
    [key] in the cleaned dictionary. *)
Definition clean_field (key : string) (v : value) : result value :=
  if mem key ["transaction_id"; "customer_id"; "account_id"; "channel";
              "region"; "txn_type"]
  then Ok (trim_whitespace v)
  else if mem key ["transaction_date"; "value_date"]
  then Ok (of_opt_str (normalize_date v))
  else if String.eqb key "currency"
  then Ok (of_opt_str (normalize_currency v))
  else if mem key ["amount"; "risk_score"]
  then (x <-! clean_numeric v; Ok (of_opt_float x))
  else if String.eqb key "merchant_category"
  then Ok (VStr (clean_merchant_category v))
  else if mem key ["account_type"; "direction"]
  then (if truthy v then upper_method (trim_whitespace v) else Ok v)
  else Ok (if is_str v then trim_whitespace v else v).

(** [clean_transaction] fills a new dictionary, one field of the input
    after the other; the first exception ends the loop. *)
Definition clean_transaction (transaction : record) : result record :=
  map_fold (fun key v acc =>
              cleaned <-! acc;
              v' <-! clean_field key v;
              Ok (<[key := v']> cleaned))
           (Ok ∅) transaction.

Definition convert_date_to_date_object (date_str : value) : option date :=
  if negb (truthy date_str) then None
  else strptime (strip (py_str date_str)) fmt_iso.

Definition convert_amount_to_float (amount : value) : option float :=
  match amount with
  | VNone => None
  | _ => match py_float amount with Ok x => Some x | Raise _ => None end
  end.

Definition convert_risk_score_to_float (risk_score : value) : option float :=
  if none_or_blank risk_score then None
  else match py_float risk_score with Ok x => Some x | Raise _ => None end.

Definition is_large_transaction (amount : option float) : bool :=
  match amount with
  | None => false
  | Some x => gt_int x 5000000
  end.

Definition is_crossborder_transaction (currency : value) : bool :=
  if negb (truthy currency) then false
  else negb (String.eqb (upper (strip (py_str currency))) "IDR").

Definition days : list string :=
  ["Monday"; "Tuesday"; "Wednesday"; "Thursday"; "Friday"; "Saturday";
   "Sunday"].

Definition get_transaction_day (date_obj : option date) : option string :=
  match date_obj with
  | None => None
  | Some d => Some (nth (Z.to_nat (weekday d)) days "")
  end.

(** [math.log(x)] on a float: NaN and +inf are returned as they are, a
    positive finite number goes to the C library, anything else is a
    [ValueError]. *)
Definition math_log (x : float) : result float :=
  match x with
  | S754_nan => Ok S754_nan
  | S754_infinity false => Ok (S754_infinity false)
  | S754_finite false _ _ => Ok (libm_log x)
  | _ => Raise ValueError
  end.

Definition calculate_amount_log (amount : option float) : option float :=
  match amount with
  | None => None
  | Some x =>
      if le_int x 0 then None
      else match math_log x with Ok y => Some y | Raise _ => None end
  end.

(** [transformed['amount']] and [transformed['transaction_date']] read
    back what the function stored a few lines earlier: the converted
    amount and date are passed on directly. *)
Definition transform_transaction (transaction : record) : record :=
  let transformed := transaction in
  let transaction_date :=
    convert_date_to_date_object (dict_get transformed "transaction_date" VNone) in
  let transformed :=
    <["transaction_date" := of_opt_date transaction_date]> transformed in
  let amount := convert_amount_to_float (dict_get transformed "amount" VNone) in
  let transformed := <["amount" := of_opt_float amount]> transformed in
  let risk_score :=
    convert_risk_score_to_float (dict_get transformed "risk_score" VNone) in
  let transformed := <["risk_score" := of_opt_float risk_score]> transformed in
  let transformed :=
    <["is_large_transaction" := VBool (is_large_transaction amount)]>
      transformed in
  let transformed :=
    <["is_crossborder" :=
        VBool (is_crossborder_transaction
                 (dict_get transformed "currency" (VStr "")))]> transformed in
  let transformed :=
    <["transaction_day" := of_opt_str (get_transaction_day transaction_date)]>
      transformed in
  <["amount_log" := of_opt_float (calculate_amount_log amount)]> transformed.

(** ** The vocabulary of the properties *)

(** A text with no whitespace at either end. *)
Definition stripped (s : string) : Prop :=
  match first_char s with Some c => is_space c = false | None => True end
  /\ match last_char s with Some c => is_space c = false | None => True end.

(** What the loop has computed after any number of fields: either a
    dictionary with the cleaned value of every field seen, or the exception
    of a field. *)
Definition cleaned_from (m : record) (r : result record) : Prop :=
  match r with
  | Ok c =>
      forall k,
        match m !! k with
        | Some v => exists v', clean_field k v = Ok v' /\ c !! k = Some v'
        | None => c !! k = None
        end
  | Raise e => exists k v, m !! k = Some v /\ clean_field k v = Raise e
  end.

(** The transaction id the specification asks for: [TXN] followed by
    exactly seven digits. *)
Definition txn_id_wellformed (s : string) : Prop :=
  exists ds, s = "TXN" ++ ds /\ String.length ds = 7%nat
             /\ all_chars is_digit ds = true.

(** A text that [strptime] accepts as [YYYY-MM-DD] or as [DD/MM/YYYY]. *)
Definition parses_as_date (s : string) : Prop :=
  is_Some (strptime s fmt_iso) \/ is_Some (strptime s fmt_dmy).

(** The mandatory rules as the specification words them, on the content
    of a field ([None] when the record has no such field). *)
Definition id_valid (f : option value) : Prop :=
  exists s, f = Some (VStr s) /\ txn_id_wellformed (strip s).

Definition date_valid (f : option value) : Prop :=
  exists s, f = Some (VStr s) /\ parses_as_date (strip s).

Definition amount_valid (f : option value) : Prop :=
  exists v x, f = Some v /\ none_or_blank v = false
              /\ py_float v = Ok x /\ at_least x 0.

Definition currency_valid (f : option value) : Prop :=
  exists s, f = Some (VStr s) /\ upper (strip s) ∈ VALID_CURRENCIES.

(** The error of the first violated field, in the order id, date, amount,
    currency. *)
Inductive first_violation (t : record) : exn -> Prop :=
  | violation_id :
      ~ id_valid (t !! "transaction_id") ->
      first_violation t InvalidTransactionIDError
  | violation_date :
      id_valid (t !! "transaction_id") ->
      ~ date_valid (t !! "transaction_date") ->
      first_violation t InvalidDateFormatError
  | violation_amount :
      id_valid (t !! "transaction_id") ->
      date_valid (t !! "transaction_date") ->
      ~ amount_valid (t !! "amount") ->
      first_violation t InvalidAmountError
  | violation_currency :
      id_valid (t !! "transaction_id") ->
      date_valid (t !! "transaction_date") ->
      amount_valid (t !! "amount") ->
      ~ currency_valid (t !! "currency") ->
      first_violation t InvalidCurrencyError.

(** The one thing [clean_transaction] needs of its input: what is stored
    under [account_type] and [direction] is text, or is false as [None]
    and the empty string are.  The records of the CSV reader, whose values
    are strings or [None], are of this kind. *)
Definition optional_fields_textual (t : record) : Prop :=
  forall k v, t !! k = Some v -> mem k ["account_type"; "direction"] = true ->
              is_str v = true \/ truthy v = false.

(** The float 5000000.0, the threshold itself. *)
Definition five_million : float := PyFloat.of_decimal false 5000000 0.

(** What the specification says of the cross-border flag: the currency,
    trimmed and in upper case, is there, is not empty and is not IDR. *)
Definition crossborder_spec (c : value) : Prop :=
  exists s, c = VStr s /\ upper (strip s) <> "" /\ upper (strip s) <> "IDR".

Definition converted_keys : gset string :=
  {[ "transaction_date"; "amount"; "risk_score" ]}.

Definition derived_keys : gset string :=
  {[ "is_large_transaction"; "is_crossborder"; "transaction_day";
     "amount_log" ]}.

(** A date written as [DD/MM/YYYY], two digits for the day and the month
    and four for the year. *)
Definition dmy_text (d : date) : string :=
  pad2 (day d) (String "/" (pad2 (month d) (String "/" (pad4 (year d) "")))).

(** The date a value stands for in a date field: what [strptime] reads
    from its trimmed text in the first of the two formats that fits. *)
Definition date_of (v : value) : option date :=
  if negb (truthy v) then None
  else orelse (strptime (strip (py_str v)) fmt_iso)
              (strptime (strip (py_str v)) fmt_dmy).

(** The content of a date field is no date before the year 1000; such a
    year has four digits however it is printed. *)
Definition from_1000 (f : option value) : Prop :=
  forall v d, f = Some v -> date_of v = Some d -> 1000 <= year d.

Definition dates_from_1000 (t : record) : Prop :=
  forall k, mem k ["transaction_date"; "value_date"] = true ->
            from_1000 (t !! k).

(** The fixture with a date of the year 999. *)
Definition early_transaction : record :=
  <["transaction_date" := VStr "01/01/0999"]> valid_transaction.

Definition float_zero : float := S754_zero false.


(** The shapes a cleaned value has, by the name of its field. *)
Definition cleaned_shape (key : string) (v : value) : Prop :=
  if mem key ["transaction_id"; "customer_id"; "account_id"; "channel";
              "region"; "txn_type"]
  then forall s, v = VStr s -> stripped s
  else if mem key ["transaction_date"; "value_date"]
  then v = VNone
       \/ exists d, v = VStr (strftime_iso d)
                    /\ valid_ymd (year d) (month d) (day d) = true
  else if String.eqb key "currency"
  then v = VNone \/ v = VStr "IDR" \/ v = VStr "USD" \/ v = VStr "SGD"
  else if mem key ["amount"; "risk_score"]
  then v = VNone \/ exists x, v = VFloat x
  else if String.eqb key "merchant_category"
  then exists s, v = VStr s /\ s <> "" /\ stripped s
  else if mem key ["account_type"; "direction"]
  then (exists s, v = VStr s /\ stripped s /\ upper s = s) \/ truthy v = false
  else forall s, v = VStr s -> stripped s.

(** * Properties *)

(** ** The models on the values of the test suite *)

Example strip_both : PyStr.strip "  TXN0000001 " = "TXN0000001".
Proof. reflexivity. Qed.

Example strip_blank : PyStr.strip "   " = "".
Proof. reflexivity. Qed.

Example upper_idr : PyStr.upper (PyStr.strip " idr ") = "IDR".
Proof. reflexivity. Qed.

Example strptime_iso_ex :
  PyDate.strptime "2024-02-21" PyDate.fmt_iso = Some (PyDate.Date 2024 2 21).
Proof. reflexivity. Qed.

Example strptime_dmy_ex :
  PyDate.strptime "21/02/2024" PyDate.fmt_dmy = Some (PyDate.Date 2024 2 21).
Proof. reflexivity. Qed.

Example strptime_short_fields :
  PyDate.strptime "2024-2-5" PyDate.fmt_iso = Some (PyDate.Date 2024 2 5).
Proof. reflexivity. Qed.

Example strptime_bad_month :
  PyDate.strptime "2024-13-45" PyDate.fmt_iso = None.
Proof. reflexivity. Qed.

Example strptime_wrong_order :
  PyDate.strptime "02-21-2024" PyDate.fmt_iso = None
  /\ PyDate.strptime "02-21-2024" PyDate.fmt_dmy = None.
Proof. split; reflexivity. Qed.

Example strptime_feb_30 : PyDate.strptime "30/02/2024" PyDate.fmt_dmy = None.
Proof. reflexivity. Qed.

Example strftime_ex :
  PyDate.strftime_iso (PyDate.Date 2024 2 21) = "2024-02-21".
Proof. reflexivity. Qed.

Example strftime_year_999 :
  PyDate.strftime_iso (PyDate.Date 999 1 1) = "999-01-01"
  /\ PyDate.isoformat (PyDate.Date 999 1 1) = "0999-01-01"
  /\ PyDate.strptime "0999-01-01" PyDate.fmt_iso = Some (PyDate.Date 999 1 1)
  /\ PyDate.strptime "999-01-01" PyDate.fmt_iso = None
  /\ PyDate.strptime "999-01-01" PyDate.fmt_dmy = None.
Proof. repeat split; reflexivity. Qed.

Example weekday_ex :
  PyDate.weekday (PyDate.Date 2024 2 21) = 2
  /\ PyDate.weekday (PyDate.Date 2024 2 19) = 0
  /\ PyDate.weekday (PyDate.Date 2024 2 25) = 6.
Proof. repeat split; reflexivity. Qed.

Example float_5000_50 :
  PyFloat.of_string "5000.50" = Some (S754_finite false 5498107894693888 (-40)).
Proof. vm_compute. reflexivity. Qed.

Example float_tenth :
  PyFloat.of_string "0.1" = Some (S754_finite false 7205759403792794 (-56)).
Proof. vm_compute. reflexivity. Qed.

Example float_1e23 :
  PyFloat.of_string " 1E23 " = Some (S754_finite false 5960464477539062 24).
Proof. vm_compute. reflexivity. Qed.

Example float_tie_to_even :
  PyFloat.of_string "9007199254740993"
  = Some (S754_finite false 4503599627370496 1).
Proof. vm_compute. reflexivity. Qed.

Example float_overflow :
  PyFloat.of_string "1e400" = Some (S754_infinity false)
  /\ PyFloat.of_string "1.7976931348623157e308"
     = Some (S754_finite false 9007199254740991 971)
  /\ PyFloat.of_string "1.7976931348623159e308" = Some (S754_infinity false).
Proof. vm_compute. repeat split; reflexivity. Qed.

Example float_underflow :
  PyFloat.of_string "1e-400" = Some (S754_zero false)
  /\ PyFloat.of_string "2.5e-324" = Some (S754_finite false 1 (-1074)).
Proof. vm_compute. split; reflexivity. Qed.

Example float_words :
  PyFloat.of_string "-Infinity" = Some (S754_infinity true)
  /\ PyFloat.of_string "NaN" = Some S754_nan
  /\ PyFloat.of_string "1_000.5e+0_1" = PyFloat.of_string "10005"
  /\ PyFloat.of_string ".5" = PyFloat.of_string "0.5"
  /\ PyFloat.of_string "5." = PyFloat.of_string "5".
Proof. vm_compute. repeat split; reflexivity. Qed.

Example float_rejected :
  PyFloat.of_string "abc" = None /\ PyFloat.of_string "" = None
  /\ PyFloat.of_string "1__0" = None /\ PyFloat.of_string "_1" = None
  /\ PyFloat.of_string "1e" = None /\ PyFloat.of_string "." = None
  /\ PyFloat.of_string "+-1" = None /\ PyFloat.of_string "1 2" = None
  /\ PyFloat.of_string "0x10" = None /\ PyFloat.of_string "1_.5" = None.
Proof. vm_compute. repeat split; reflexivity. Qed.

Example float_whitespace :
  PyFloat.of_string (String "009" " 5 ") = PyFloat.of_string "5"
  /\ PyFloat.of_string (String "028" "5") = None
  /\ PyStr.strip (String "028" "5") = "5".
Proof. vm_compute. repeat split; reflexivity. Qed.

Example float_rounds_to_threshold :
  PyFloat.of_string "10000000.0000000001" = PyFloat.of_string "10000000".
Proof. vm_compute. reflexivity. Qed.

Example validate_valid_transaction :
  validate_transaction valid_transaction
  = (Ok tt, <["amount_anomaly" := VBool false]> valid_transaction).
Proof. vm_compute. reflexivity. Qed.

Example validate_invalid_transaction_id :
  let t : record := <["transaction_id" := VStr "INVALID123"]> valid_transaction in
  validate_transaction t = (Raise InvalidTransactionIDError, t).
Proof. vm_compute. reflexivity. Qed.

Example validate_invalid_currency :
  let t : record := <["currency" := VStr "EUR"]> valid_transaction in
  validate_transaction t = (Raise InvalidCurrencyError, t).
Proof. vm_compute. reflexivity. Qed.

Example validate_negative_amount :
  let t : record := <["amount" := VStr "-5000.50"]> valid_transaction in
  validate_transaction t = (Raise InvalidAmountError, t).
Proof. vm_compute. reflexivity. Qed.

Example validate_amount_anomaly_flag :
  let t : record := <["amount" := VStr "15000000.00"]> valid_transaction in
  validate_transaction t = (Ok tt, <["amount_anomaly" := VBool true]> t).
Proof. vm_compute. reflexivity. Qed.

(** ** Facts about strings *)

Lemma is_space_upper_char c : is_space (upper_char c) = is_space c.
Proof. destruct c as [[] [] [] [] [] [] [] []]; reflexivity. Qed.

Lemma upper_char_idem c : upper_char (upper_char c) = upper_char c.
Proof. destruct c as [[] [] [] [] [] [] [] []]; reflexivity. Qed.

Lemma upper_idem s : upper (upper s) = upper s.
Proof. induction s as [|c r IH]; simpl; [done|]. by rewrite upper_char_idem, IH. Qed.

Lemma lstrip_upper s : lstrip (upper s) = upper (lstrip s).
Proof.
  induction s as [|c r IH]; simpl; [done|].
  rewrite is_space_upper_char. by destruct (is_space c).
Qed.

Lemma rstrip_upper s : rstrip (upper s) = upper (rstrip s).
Proof.
  induction s as [|c r IH]; simpl; [done|].
  rewrite IH, is_space_upper_char.
  destruct (rstrip r); simpl; [|done]. by destruct (is_space c).
Qed.

Lemma strip_upper s : strip (upper s) = upper (strip s).
Proof. unfold strip. by rewrite lstrip_upper, rstrip_upper. Qed.

Lemma lstrip_first s :
  match first_char (lstrip s) with Some c => is_space c = false | None => True end.
Proof.
  induction s as [|c r IH]; simpl; [done|].
  destruct (is_space c) eqn:E; simpl; done.
Qed.

Lemma rstrip_last s :
  match last_char (rstrip s) with Some c => is_space c = false | None => True end.
Proof.
  induction s as [|c r IH]; simpl; [done|].
  destruct (rstrip r) as [|c' r'] eqn:E.
  - destruct (is_space c) eqn:Ec; simpl; done.
  - exact IH.
Qed.

Lemma rstrip_first s c :
  first_char s = Some c -> is_space c = false -> first_char (rstrip s) = Some c.
Proof.
  destruct s as [|a r]; simpl; [done|]. intros [= ->] Hc.
  destruct (rstrip r); [by rewrite Hc|done].
Qed.

Lemma lstrip_id s :
  match first_char s with Some c => is_space c = false | None => True end ->
  lstrip s = s.
Proof. destruct s as [|c r]; simpl; [done|]. by intros ->. Qed.

Lemma rstrip_id s :
  match last_char s with Some c => is_space c = false | None => True end ->
  rstrip s = s.
Proof.
  induction s as [|c r IH]; simpl; [done|].
  destruct r as [|c' r'].
  - simpl. by intros ->.
  - intros H. rewrite (IH H). done.
Qed.

Lemma strip_stripped s : stripped (strip s).
Proof.
  unfold stripped, strip. split; [|apply rstrip_last].
  pose proof (lstrip_first s) as H.
  destruct (first_char (lstrip s)) as [c|] eqn:E.
  - by rewrite (rstrip_first _ _ E H).
  - destruct (lstrip s); [done|discriminate].
Qed.

Lemma strip_id s : stripped s -> strip s = s.
Proof.
  intros [H1 H2]. unfold strip. rewrite (lstrip_id _ H1). by apply rstrip_id.
Qed.

Lemma strip_idem s : strip (strip s) = strip s.
Proof. apply strip_id, strip_stripped. Qed.

Lemma upper_first s :
  first_char (upper s) = upper_char <$> first_char s.
Proof. by destruct s. Qed.

Lemma upper_last s :
  last_char (upper s) = upper_char <$> last_char s.
Proof.
  induction s as [|c r IH]; simpl; [done|].
  destruct r as [|c' r']; [done|]. exact IH.
Qed.

Lemma stripped_upper s : stripped s -> stripped (upper s).
Proof.
  unfold stripped. rewrite upper_first, upper_last.
  destruct (first_char s), (last_char s); simpl;
    rewrite ?is_space_upper_char; done.
Qed.

(** ** Facts about dates *)

Lemma range_cases (P : Z -> Prop) (lo len : Z) :
  Forall P (seqZ lo len) -> forall z, lo <= z < lo + len -> P z.
Proof.
  intros H z Hz. rewrite Forall_forall in H. apply H, elem_of_seqZ. lia.
Qed.

(** Case analysis on an integer variable known to lie in [lo, lo + len). *)
Ltac by_cases z lo len :=
  pattern z; apply (range_cases _ lo len); [|lia];
  let l := eval vm_compute in (seqZ lo len) in
  change (seqZ lo len) with l;
  repeat apply Forall_cons_2; [..|apply Forall_nil_2]; cbv beta.

Lemma digit_char_digit n : is_digit (digit_char n) = true.
Proof.
  unfold digit_char. assert (H : 0 <= n mod 10 <= 9) by (pose proof (Z.mod_pos_bound n 10); lia).
  generalize dependent (n mod 10). intros k Hk.
  assert (k = 0 \/ k = 1 \/ k = 2 \/ k = 3 \/ k = 4 \/ k = 5 \/ k = 6 \/ k = 7
          \/ k = 8 \/ k = 9) as Hc by lia.
  repeat destruct Hc as [-> | Hc]; try subst k; reflexivity.
Qed.

Lemma digit_char_val n : digit_val (digit_char n) = n mod 10.
Proof.
  unfold digit_char. assert (H : 0 <= n mod 10 <= 9) by (pose proof (Z.mod_pos_bound n 10); lia).
  generalize dependent (n mod 10). intros k Hk.
  assert (k = 0 \/ k = 1 \/ k = 2 \/ k = 3 \/ k = 4 \/ k = 5 \/ k = 6 \/ k = 7
          \/ k = 8 \/ k = 9) as Hc by lia.
  repeat destruct Hc as [-> | Hc]; try subst k; reflexivity.
Qed.

Lemma digit_char_not_space n : is_space (digit_char n) = false.
Proof.
  pose proof (digit_char_digit n) as H.
  destruct (digit_char n) as [[] [] [] [] [] [] [] []]; done.
Qed.

Lemma re_match_year y fmt r g :
  0 <= y <= 9999 ->
  re_match (Dir_Y :: fmt) (pad4 y r) g = re_match fmt r (Groups y (gm g) (gd g)).
Proof.
  intros Hy. unfold pad4. simpl. rewrite !digit_char_digit. simpl.
  rewrite !digit_char_val. do 2 f_equal.
  f_equal. pose proof (Z.div_mod y 10). pose proof (Z.div_mod (y / 10) 10).
  pose proof (Z.div_mod (y / 100) 10). pose proof (Z.div_mod (y / 1000) 10).
  assert (y / 1000 / 10 = 0) by (rewrite Z.div_div by lia; apply Z.div_small; lia).
  assert (y / 10 / 10 = y / 100) by (rewrite Z.div_div by lia; done).
  assert (y / 100 / 10 = y / 1000) by (rewrite Z.div_div by lia; done).
  lia.
Qed.

Lemma re_match_month m fmt r g :
  1 <= m <= 12 ->
  re_match (Dir_m :: Lit "-" :: fmt) (pad2 m (String "-" r)) g
  = re_match fmt r (Groups (gY g) m (gd g)).
Proof.
  intros Hm. revert fmt r g. by_cases m 1 12;
    intros fmt r g; cbn; by destruct (re_match fmt r _).
Qed.

Lemma re_match_day d g :
  1 <= d <= 31 ->
  re_match [Dir_d] (pad2 d "") g = Some (Groups (gY g) (gm g) d, "").
Proof. intros Hd. revert g. by_cases d 1 31; intros g; reflexivity. Qed.

Lemma days_in_month_le y m : days_in_month y m <= 31.
Proof.
  unfold days_in_month.
  repeat match goal with |- context [if ?b then _ else _] => destruct b end; lia.
Qed.

(** Parsing what [isoformat] printed gives the date back. *)
Lemma strptime_isoformat y m d :
  valid_ymd y m d = true ->
  strptime (isoformat (Date y m d)) fmt_iso = Some (Date y m d).
Proof.
  intros Hv. pose proof Hv as Hv'. unfold valid_ymd in Hv'.
  pose proof (days_in_month_le y m).
  repeat (apply andb_prop in Hv' as [Hv' ?]).
  unfold strptime, isoformat, fmt_iso. simpl year; simpl month; simpl day.
  rewrite re_match_year by lia.
  change (re_match (Lit "-" :: ?f) (String "-" ?r) ?g) with (re_match f r g).
  rewrite re_match_month by lia.
  rewrite re_match_day by lia. simpl. unfold make_date. by rewrite Hv.
Qed.

Lemma strptime_valid s fmt d :
  strptime s fmt = Some d -> valid_ymd (year d) (month d) (day d) = true.
Proof.
  unfold strptime, make_date. destruct (re_match fmt s no_groups) as [[g [|]]|]; [|done..].
  destruct (valid_ymd _ _ _) eqn:E; [|done]. by intros [= <-].
Qed.

Lemma valid_ymd_year y m d : valid_ymd y m d = true -> 1 <= y <= 9999.
Proof.
  unfold valid_ymd. intros H. repeat (apply andb_prop in H as [H ?]). lia.
Qed.

Lemma isoformat_stripped d : stripped (isoformat d).
Proof. split; simpl; apply digit_char_not_space. Qed.

Lemma strptime_strip_isoformat d :
  valid_ymd (year d) (month d) (day d) = true ->
  strptime (strip (isoformat d)) fmt_iso = Some d.
Proof.
  intros H. rewrite strip_id by apply isoformat_stripped.
  destruct d as [y m dd]. by apply strptime_isoformat.
Qed.

(** From the year 1000 on [strftime] prints what [isoformat] prints. *)
Lemma strftime_iso_from_1000 d : 1000 <= year d -> strftime_iso d = isoformat d.
Proof.
  intros H. unfold strftime_iso, isoformat, unpadded.
  destruct (Z.ltb_spec (year d) 10); [lia|].
  destruct (Z.ltb_spec (year d) 100); [lia|].
  destruct (Z.ltb_spec (year d) 1000); [lia|done].
Qed.

Lemma strftime_iso_stripped d : stripped (strftime_iso d).
Proof.
  unfold strftime_iso, unpadded.
  destruct (year d <? 10); [|destruct (year d <? 100);
    [|destruct (year d <? 1000)]];
    split; simpl; apply digit_char_not_space.
Qed.

Lemma strptime_strftime d :
  valid_ymd (year d) (month d) (day d) = true -> 1000 <= year d ->
  strptime (strip (strftime_iso d)) fmt_iso = Some d.
Proof.
  intros H Hy. rewrite strftime_iso_from_1000 by done.
  by apply strptime_strip_isoformat.
Qed.

(** A year printed on fewer than four digits is no [%Y] for [strptime],
    and the text that starts with it is no [DD/MM/YYYY] either. *)
Lemma re_match_year_short y m fmt r g :
  1 <= y < 1000 ->
  re_match (Dir_Y :: fmt) (unpadded y (String "-" (pad2 m r))) g = None.
Proof.
  intros Hy. revert m fmt r g. by_cases y 1 999; intros m fmt r g; reflexivity.
Qed.

Lemma re_match_day_short y fmt r g :
  1 <= y < 1000 ->
  re_match (Dir_d :: Lit "/" :: fmt) (unpadded y (String "-" r)) g = None.
Proof.
  intros Hy. revert fmt r g. by_cases y 1 999; intros fmt r g; reflexivity.
Qed.

Lemma strptime_strftime_short d :
  valid_ymd (year d) (month d) (day d) = true -> year d < 1000 ->
  strptime (strip (strftime_iso d)) fmt_iso = None
  /\ strptime (strip (strftime_iso d)) fmt_dmy = None.
Proof.
  intros Hv Hy. rewrite strip_id by apply strftime_iso_stripped.
  apply valid_ymd_year in Hv.
  unfold strptime, strftime_iso, fmt_iso, fmt_dmy.
  by rewrite re_match_year_short, re_match_day_short by lia.
Qed.

(** ** The cleaning rules, field by field *)

Lemma trim_whitespace_idem v :
  trim_whitespace (trim_whitespace v) = trim_whitespace v.
Proof. destruct v; simpl; try done. by rewrite strip_idem. Qed.

Lemma normalize_date_canonical v s :
  normalize_date v = Some s ->
  exists d, s = strftime_iso d /\ valid_ymd (year d) (month d) (day d) = true.
Proof.
  unfold normalize_date. destruct (negb (truthy v)); [done|].
  destruct (strptime _ fmt_iso) as [d|] eqn:E1.
  - intros [= <-]. exists d. split; [done|]. by eapply strptime_valid.
  - destruct (strptime _ fmt_dmy) as [d|] eqn:E2; [|done].
    intros [= <-]. exists d. split; [done|]. by eapply strptime_valid.
Qed.

(** [normalize_date] prints the date its argument stands for. *)
Lemma normalize_date_date_of v :
  normalize_date v = strftime_iso <$> date_of v.
Proof.
  unfold normalize_date, date_of. destruct (negb (truthy v)); [done|].
  cbv zeta. destruct (strptime _ fmt_iso); [done|].
  by destruct (strptime _ fmt_dmy).
Qed.

Lemma date_of_valid v d :
  date_of v = Some d -> valid_ymd (year d) (month d) (day d) = true.
Proof.
  unfold date_of. destruct (negb (truthy v)); [done|].
  destruct (strptime _ fmt_iso) as [d1|] eqn:E1; simpl.
  - intros [= <-]. by eapply strptime_valid.
  - intros E2. by eapply strptime_valid.
Qed.

Lemma truthy_strftime_iso d : truthy (VStr (strftime_iso d)) = true.
Proof.
  unfold strftime_iso, unpadded.
  by destruct (year d <? 10); [|destruct (year d <? 100);
    [|destruct (year d <? 1000)]].
Qed.

(** What [normalize_date] makes of its own result: the same text from
    the year 1000 on, nothing before. *)
Lemma normalize_date_again d :
  valid_ymd (year d) (month d) (day d) = true ->
  normalize_date (VStr (strftime_iso d))
  = if 1000 <=? year d then Some (strftime_iso d) else None.
Proof.
  intros Hv. unfold normalize_date. rewrite truthy_strftime_iso.
  cbn [negb py_str]. cbv zeta.
  destruct (Z.leb_spec 1000 (year d)) as [Hy|Hy].
  - by rewrite strptime_strftime.
  - by destruct (strptime_strftime_short d Hv Hy) as [-> ->].
Qed.

Lemma normalize_date_idem v :
  (forall d, date_of v = Some d -> 1000 <= year d) ->
  normalize_date (of_opt_str (normalize_date v)) = normalize_date v.
Proof.
  intros Hy. rewrite (normalize_date_date_of v).
  destruct (date_of v) as [d|] eqn:E; [|done]. simpl.
  rewrite normalize_date_again by (by eapply date_of_valid).
  destruct (Z.leb_spec 1000 (year d)); [done|]. specialize (Hy d eq_refl). lia.
Qed.

Lemma normalize_currency_valid v s :
  normalize_currency v = Some s -> s = "IDR" \/ s = "USD" \/ s = "SGD".
Proof.
  unfold normalize_currency. destruct (negb (truthy v)); [done|].
  destruct (mem _ _) eqn:E; [|done]. simpl. intros [= <-].
  unfold mem in E. simpl in E.
  repeat match type of E with
         | (String.eqb ?a ?b || _) = true =>
             destruct (String.eqb_spec a b) as [->|_]; [auto|simpl in E]
         end.
  done.
Qed.

Lemma normalize_currency_idem v :
  normalize_currency (of_opt_str (normalize_currency v)) = normalize_currency v.
Proof.
  destruct (normalize_currency v) as [s|] eqn:E; [|done].
  apply normalize_currency_valid in E as [-> | [-> | ->]]; reflexivity.
Qed.

Lemma clean_numeric_idem v x :
  clean_numeric v = Ok x -> clean_numeric (of_opt_float x) = Ok x.
Proof. intros _. by destruct x. Qed.

Lemma nonempty_strip_idem s :
  nonempty (strip s) = true -> nonempty (strip (strip s)) = true.
Proof. by rewrite strip_idem. Qed.

Lemma clean_merchant_category_idem v :
  clean_merchant_category (VStr (clean_merchant_category v))
  = clean_merchant_category v.
Proof.
  unfold clean_merchant_category at 2 3.
  destruct (negb (truthy v) || negb (nonempty (strip (py_str v)))) eqn:E;
    [reflexivity|].
  apply orb_false_elim in E as [_ E]. apply negb_false_iff in E.
  unfold clean_merchant_category. simpl. rewrite strip_idem, E.
  by destruct (strip (py_str v)).
Qed.

Lemma upper_trim_idem v v' :
  truthy v = true -> upper_method (trim_whitespace v) = Ok v' ->
  (if truthy v' then upper_method (trim_whitespace v') else Ok v') = Ok v'.
Proof.
  destruct v as [| | |s|]; simpl; try done. intros _ [= <-]. simpl.
  destruct (nonempty (upper (strip s))); [|done].
  by rewrite strip_upper, strip_idem, upper_idem.
Qed.

Lemma clean_field_idem key v v' :
  clean_field key v = Ok v' ->
  (mem key ["transaction_date"; "value_date"] = true ->
   forall d, date_of v = Some d -> 1000 <= year d) ->
  clean_field key v' = Ok v'.
Proof.
  unfold clean_field.
  repeat match goal with
         | |- context [if mem key ?l then _ else _] => destruct (mem key l)
         | |- context [if String.eqb key ?l then _ else _] =>
             destruct (String.eqb key l)
         end;
    intros E Hy; revert E;
    first
      [ intros [= <-];
        first [ by rewrite trim_whitespace_idem
              | by rewrite normalize_date_idem by auto
              | by rewrite normalize_currency_idem
              | by rewrite clean_merchant_category_idem
              | destruct v; simpl; try done; by rewrite strip_idem ]
      | destruct (clean_numeric v) as [x|] eqn:E; [|done]; simpl;
        intros [= <-]; by rewrite (clean_numeric_idem _ _ E)
      | destruct (truthy v) eqn:E;
        [ by apply upper_trim_idem | intros [= <-]; by rewrite E ] ].
Qed.

(** ** The loop of [clean_transaction] *)

Lemma clean_transaction_cleaned_from (t : record) :
  cleaned_from t (clean_transaction t).
Proof.
  unfold clean_transaction.
  apply (map_fold_weak_ind (fun r m => cleaned_from m r)).
  - intros k. by rewrite !lookup_empty.
  - intros i x m r Hi Hr. destruct r as [c|e]; simpl in *.
    + destruct (clean_field i x) as [v'|e] eqn:E; simpl.
      * intros k. destruct (decide (k = i)) as [->|Hne].
        -- rewrite !lookup_insert_eq. eauto.
        -- rewrite !lookup_insert_ne by done. apply Hr.
      * exists i, x. by rewrite lookup_insert_eq.
    + destruct Hr as (k & v & Hk & Hv). exists k, v. split; [|done].
      rewrite lookup_insert_ne; [done|]. intros ->. congruence.
Qed.

Lemma clean_transaction_ok (t c : record) :
  clean_transaction t = Ok c ->
  forall k,
    match t !! k with
    | Some v => exists v', clean_field k v = Ok v' /\ c !! k = Some v'
    | None => c !! k = None
    end.
Proof.
  intros H. pose proof (clean_transaction_cleaned_from t) as P.
  by rewrite H in P.
Qed.

Lemma clean_transaction_raise (t : record) e :
  clean_transaction t = Raise e ->
  exists k v, t !! k = Some v /\ clean_field k v = Raise e.
Proof.
  intros H. pose proof (clean_transaction_cleaned_from t) as P.
  by rewrite H in P.
Qed.

Lemma clean_transaction_total (t : record) :
  (forall k v, t !! k = Some v -> exists v', clean_field k v = Ok v') ->
  exists c, clean_transaction t = Ok c.
Proof.
  intros H. destruct (clean_transaction t) as [c|e] eqn:E; [eauto|].
  apply clean_transaction_raise in E as (k & v & Hk & Hv).
  destruct (H k v Hk) as [v' Hv']. congruence.
Qed.

Lemma clean_transaction_fixed (c : record) :
  (forall k v, c !! k = Some v -> clean_field k v = Ok v) ->
  clean_transaction c = Ok c.
Proof.
  intros H. destruct (clean_transaction_total c) as [c' E]; [by eauto|].
  rewrite E. f_equal. apply map_eq. intros k.
  pose proof (clean_transaction_ok _ _ E k) as P.
  destruct (c !! k) as [v|] eqn:Ek; [|done].
  destruct P as (v' & Hv' & ->). rewrite (H k v Ek) in Hv'. congruence.
Qed.

(** ** Comparisons of floats with integers *)

Lemma dyadic_compare v e n :
  (if 0 <=? e then v * 2 ^ e ?= n else v ?= n * 2 ^ (- e))
  = (dyadic v e ?= inject_Z n)%Q.
Proof.
  unfold dyadic. destruct (Z.leb_spec 0 e) as [He|He].
  - assert (inject_Z v * 2 ^ e == inject_Z (v * 2 ^ e))%Q as ->.
    { rewrite inject_Z_mult. change 2%Q with (inject_Z 2).
      rewrite Zpower_Qpower by done. reflexivity. }
    unfold Qcompare. simpl. by rewrite !Z.mul_1_r.
  - assert (0 < 2 ^ (- e)) as Hp by (apply Z.pow_pos_nonneg; lia).
    destruct (2 ^ (- e)) as [|p|p] eqn:Ep; try lia.
    assert (inject_Z v * 2 ^ e == v # p)%Q as ->.
    { replace e with (- - e) at 1 by lia. rewrite Qpower_opp.
      change 2%Q with (inject_Z 2). rewrite <- Zpower_Qpower by lia.
      rewrite Ep. unfold Qeq, Qmult, Qinv, inject_Z. simpl. lia. }
    unfold Qcompare. simpl. by rewrite Z.mul_1_r.
Qed.

Lemma zero_compare n : (0 ?= n) = (0 ?= inject_Z n)%Q.
Proof. unfold Qcompare. simpl. by rewrite Z.mul_1_r. Qed.

Ltac by_order :=
  match goal with
  | |- context [(?a ?= ?b)%Q] => destruct (a ?= b)%Q
  end; simpl; intuition congruence.

(** [x > n] computes the order of the values. *)
Lemma gt_int_exceeds x n : gt_int x n = true <-> exceeds x n.
Proof.
  unfold gt_int, exceeds, compare_int. destruct x as [s|s| |s m e].
  - rewrite zero_compare, Qlt_alt, <- Qcompare_antisym. by_order.
  - destruct s; intuition congruence.
  - intuition congruence.
  - rewrite dyadic_compare, Qlt_alt, <- Qcompare_antisym. by_order.
Qed.

Lemma le_int_at_most x n : le_int x n = true <-> at_most x n.
Proof.
  unfold le_int, at_most, compare_int. destruct x as [s|s| |s m e].
  - rewrite zero_compare, Qle_alt. by_order.
  - destruct s; intuition congruence.
  - intuition congruence.
  - rewrite dyadic_compare, Qle_alt. by_order.
Qed.

Lemma ge_int_at_least x n : ge_int x n = true <-> at_least x n.
Proof.
  unfold ge_int, at_least, compare_int. destruct x as [s|s| |s m e].
  - rewrite zero_compare, Qle_alt, <- Qcompare_antisym. by_order.
  - destruct s; intuition congruence.
  - intuition congruence.
  - rewrite dyadic_compare, Qle_alt, <- Qcompare_antisym. by_order.
Qed.

(** Off NaN, [x <= n] and [x > n] exclude each other and one holds. *)
Lemma exceeds_not_at_most x n : exceeds x n -> ~ at_most x n.
Proof.
  rewrite <- gt_int_exceeds, <- le_int_at_most. unfold gt_int, le_int.
  destruct (compare_int x n) as [[]|]; congruence.
Qed.

(** ** The validator *)

Lemma mem_elem_of s l : mem s l = true <-> s ∈ l.
Proof.
  unfold mem. induction l as [|a l IH]; simpl.
  - split; [done|]. by intros ?%elem_of_nil.
  - rewrite elem_of_cons, orb_true_iff, IH.
    destruct (String.eqb_spec s a); intuition congruence.
Qed.

Lemma validate_transaction_unfold (t : record) :
  validate_transaction t =
  match validate_transaction_id (dict_get t "transaction_id" (VStr "")) with
  | Raise e => (Raise e, t)
  | Ok _ =>
  match validate_date (dict_get t "transaction_date" (VStr "")) with
  | Raise e => (Raise e, t)
  | Ok _ =>
  match validate_amount (dict_get t "amount" VNone) with
  | Raise e => (Raise e, t)
  | Ok _ =>
  match validate_currency (dict_get t "currency" (VStr "")) with
  | Raise e => (Raise e, t)
  | Ok _ =>
  match check_amount_anomaly (dict_get t "amount" (VFloat (S754_zero false))) with
  | Raise e => (Raise e, t)
  | Ok anomaly => (Ok tt, <["amount_anomaly" := VBool anomaly]> t)
  end end end end end.
Proof.
  unfold validate_transaction, mbind, get, lift, mret, set_item.
  repeat match goal with
         | |- context [match ?r with Ok _ => _ | Raise _ => _ end] =>
             destruct r; try reflexivity
         end.
Qed.

Lemma strip_nonempty s : nonempty (strip s) = true -> nonempty s = true.
Proof. by destruct s. Qed.

Lemma match_digits_all n ds :
  String.length ds = n -> all_chars is_digit ds = true ->
  match_digits n ds = Some "".
Proof.
  revert ds. induction n as [|n IH]; intros [|c ds]; simpl; try done.
  intros [= Hl] [-> Hd]%andb_prop. by apply IH.
Qed.

Lemma txn_id_wellformed_match s :
  txn_id_wellformed s -> match_transaction_id_pattern s = true.
Proof.
  intros (ds & -> & Hlen & Hd). unfold match_transaction_id_pattern.
  change (match_literal "TXN" ("TXN" ++ ds)) with (Some ds). cbv beta iota.
  by rewrite (match_digits_all _ _ Hlen Hd).
Qed.

Lemma validate_transaction_id_ok s :
  txn_id_wellformed (strip s) -> validate_transaction_id (VStr s) = Ok true.
Proof.
  intros H. unfold validate_transaction_id. simpl.
  assert (nonempty s = true) as ->.
  { apply strip_nonempty. destruct H as (ds & -> & _). done. }
  simpl. by rewrite (txn_id_wellformed_match _ H).
Qed.

Lemma parses_as_date_nonempty s : parses_as_date (strip s) -> nonempty s = true.
Proof.
  intros H. apply strip_nonempty.
  destruct (strip s); [|done]. destruct H as [[? H]|[? H]]; discriminate H.
Qed.

Lemma validate_date_ok s :
  parses_as_date (strip s) -> validate_date (VStr s) = Ok true.
Proof.
  intros H. unfold validate_date. simpl.
  rewrite (parses_as_date_nonempty _ H). simpl.
  destruct (strptime (strip s) fmt_iso) eqn:E; [done|].
  destruct H as [[? H]|[? H]]; [congruence|]. by rewrite H.
Qed.

Lemma ge_int_not_lt x n : ge_int x n = true -> lt_int x n = false.
Proof. unfold ge_int, lt_int. by destruct (compare_int x n) as [[]|]. Qed.

Lemma validate_amount_ok v x :
  none_or_blank v = false -> py_float v = Ok x -> ge_int x 0 = true ->
  validate_amount v = Ok true.
Proof.
  intros Hb Hf Hx. unfold validate_amount.
  by rewrite Hb, Hf, (ge_int_not_lt _ _ Hx).
Qed.

Lemma validate_currency_ok s :
  upper (strip s) ∈ VALID_CURRENCIES -> validate_currency (VStr s) = Ok true.
Proof.
  intros H%mem_elem_of. unfold validate_currency, truthy.
  assert (nonempty s = true) as ->.
  { apply strip_nonempty. destruct (strip s); [discriminate H|done]. }
  cbv zeta. by rewrite H.
Qed.

(** C1. A record with a well-formed id, a date in one of the two formats,
    a non-empty amount that [float] parses to a number at least 0, and a
    currency among IDR, USD and SGD is accepted: [validate_transaction]
    returns, every field is kept, and [amount_anomaly] is true exactly
    when the parsed amount is greater than 10,000,000. *)
Theorem validate_transaction_accepts
    (t : record) (tid dt cur : string) (amount : value) (x : float) :
  t !! "transaction_id" = Some (VStr tid) -> txn_id_wellformed (strip tid) ->
  t !! "transaction_date" = Some (VStr dt) -> parses_as_date (strip dt) ->
  t !! "amount" = Some amount -> none_or_blank amount = false ->
  py_float amount = Ok x -> at_least x 0 ->
  t !! "currency" = Some (VStr cur) -> upper (strip cur) ∈ VALID_CURRENCIES ->
  exists anomaly : bool,
    validate_transaction t = (Ok tt, <["amount_anomaly" := VBool anomaly]> t)
    /\ (anomaly = true <-> exceeds x 10000000).
Proof.
  intros Hid Wid Hdt Wdt Ham Wne Wfl Wge%ge_int_at_least Hcur Wcur.
  exists (gt_int x 10000000). split; [|apply gt_int_exceeds].
  rewrite validate_transaction_unfold. unfold dict_get.
  rewrite Hid, Hdt, Ham, Hcur. cbn [default from_option id].
  rewrite (validate_transaction_id_ok _ Wid), (validate_date_ok _ Wdt),
    (validate_amount_ok _ _ Wne Wfl Wge), (validate_currency_ok _ Wcur).
  unfold check_amount_anomaly. by rewrite Wfl.
Qed.

(** The exceptions [validate_transaction] can end with. *)
Lemma validate_amount_raises v e :
  validate_amount v = Raise e -> e = InvalidAmountError.
Proof.
  unfold validate_amount. destruct (none_or_blank v); [congruence|].
  destruct v as [|b|x|s|d]; simpl; try congruence.
  - destruct (lt_int _ 0); congruence.
  - destruct (lt_int x 0); congruence.
  - destruct (PyFloat.of_string s); [|congruence].
    destruct (lt_int _ 0); congruence.
Qed.

Lemma validate_amount_float v b :
  validate_amount v = Ok b -> exists x, py_float v = Ok x /\ lt_int x 0 = false.
Proof.
  unfold validate_amount. destruct (none_or_blank v); [done|].
  destruct (py_float v) as [x|[]]; try done.
  destruct (lt_int x 0) eqn:E; [done|]. eauto.
Qed.

(** C3. When [validate_transaction] raises, the dictionary it was given is
    what it was before the call: no field has changed, and a record that
    had no [amount_anomaly] still has none. *)
Theorem validate_transaction_atomic (t t' : record) (e : exn) :
  validate_transaction t = (Raise e, t') ->
  t' = t /\ (t !! "amount_anomaly" = None -> t' !! "amount_anomaly" = None).
Proof.
  rewrite validate_transaction_unfold. intros H.
  assert (t' = t) as ->; [|done].
  repeat match type of H with
         | match ?r with Ok _ => _ | Raise _ => _ end = _ => destruct r
         end; congruence.
Qed.

(** C9. When the four mandatory fields validate, a direction outside
    DEBIT, CREDIT or an account type outside SAVINGS, CURRENT, CREDIT_CARD,
    LOAN does not stop [validate_transaction]: it returns, and every field
    but [amount_anomaly], so [direction] and [account_type] too, is as it
    was. *)
Theorem validate_transaction_keeps_optional (t : record) :
  validate_transaction_id (dict_get t "transaction_id" (VStr "")) = Ok true ->
  validate_date (dict_get t "transaction_date" (VStr "")) = Ok true ->
  validate_amount (dict_get t "amount" VNone) = Ok true ->
  validate_currency (dict_get t "currency" (VStr "")) = Ok true ->
  (exists s, t !! "direction" = Some (VStr s)
             /\ upper (strip s) ∉ VALID_DIRECTIONS)
  \/ (exists s, t !! "account_type" = Some (VStr s)
                /\ upper (strip s) ∉ VALID_ACCOUNT_TYPES) ->
  exists t', validate_transaction t = (Ok tt, t')
    /\ t' !! "direction" = t !! "direction"
    /\ t' !! "account_type" = t !! "account_type"
    /\ forall k, k <> "amount_anomaly" -> t' !! k = t !! k.
Proof.
  intros Hid Hdt Ham Hcur _. rewrite validate_transaction_unfold.
  rewrite Hid, Hdt, Ham, Hcur.
  destruct (validate_amount_float _ _ Ham) as (x & Hx & _).
  assert (dict_get t "amount" (VFloat (S754_zero false)) = dict_get t "amount" VNone)
    as ->.
  { unfold dict_get in *. destruct (t !! "amount"); [done|]. discriminate Hx. }
  unfold check_amount_anomaly. rewrite Hx. simpl.
  eexists. split; [done|].
  split; [by rewrite lookup_insert_ne|]. split; [by rewrite lookup_insert_ne|].
  intros k Hk. by rewrite lookup_insert_ne.
Qed.

Lemma match_literal_spec lit s r :
  match_literal lit s = Some r -> s = lit ++ r.
Proof.
  revert s. induction lit as [|c lit IH]; intros s; simpl.
  - by intros [= ->].
  - destruct s as [|a s]; [done|].
    destruct (Ascii.eqb_spec a c) as [->|]; [|done].
    by intros ->%IH.
Qed.

Lemma match_digits_spec n r rest :
  match_digits n r = Some rest ->
  exists ds, r = ds ++ rest /\ String.length ds = n
             /\ all_chars is_digit ds = true.
Proof.
  revert r. induction n as [|n IH]; intros r; simpl.
  - intros [= ->]. by exists "".
  - destruct r as [|c r]; [done|]. destruct (is_digit c) eqn:E; [|done].
    intros (ds & -> & <- & Hd)%IH. exists (String c ds). simpl.
    by rewrite E, Hd.
Qed.

Lemma last_char_app s c : last_char (s ++ String c "") = Some c.
Proof.
  induction s as [|a s IH]; [done|].
  change (last_char (String a (s ++ String c "")) = Some c). simpl.
  destruct (s ++ String c "") eqn:E; [|done]. by destruct s.
Qed.

Lemma append_empty s : s ++ "" = s.
Proof.
  induction s as [|a s IH]; [done|].
  change (String a (s ++ "") = String a s). by f_equal.
Qed.

Lemma append_assoc (a b c : string) : (a ++ b) ++ c = a ++ b ++ c.
Proof.
  induction a as [|x a IH]; [done|].
  change (String x ((a ++ b) ++ c) = String x (a ++ b ++ c)). by f_equal.
Qed.

(** On a trimmed text the pattern accepts exactly the well-formed ids: the
    newline that [$] tolerates cannot be there. *)
Lemma match_txn_id_wellformed s :
  stripped s -> match_transaction_id_pattern s = true -> txn_id_wellformed s.
Proof.
  intros [_ Hlast]. unfold match_transaction_id_pattern.
  destruct (match_literal "TXN" s) as [r|] eqn:E1; [|done].
  apply match_literal_spec in E1 as ->.
  destruct (match_digits 7 r) as [rest|] eqn:E2; [|done].
  apply match_digits_spec in E2 as (ds & -> & Hlen & Hd).
  intros [H|H]%orb_prop; apply String.eqb_eq in H; subst rest.
  - exists ds. by rewrite append_empty.
  - exfalso. rewrite <- append_assoc, last_char_app in Hlast.
    discriminate Hlast.
Qed.

Lemma validate_transaction_id_rejects (t : record) :
  ~ id_valid (t !! "transaction_id") ->
  validate_transaction_id (dict_get t "transaction_id" (VStr ""))
  = Raise InvalidTransactionIDError.
Proof.
  intros H. unfold dict_get.
  destruct (t !! "transaction_id") as [[| | |s|]|] eqn:Et; try reflexivity.
  cbn [default from_option id].
  unfold validate_transaction_id. destruct (negb _); [done|].
  destruct (match_transaction_id_pattern (strip s)) eqn:E; [|done].
  exfalso. apply H. exists s. split; [done|].
  apply match_txn_id_wellformed; [apply strip_stripped|done].
Qed.

Lemma validate_date_rejects (t : record) :
  ~ date_valid (t !! "transaction_date") ->
  validate_date (dict_get t "transaction_date" (VStr ""))
  = Raise InvalidDateFormatError.
Proof.
  intros H. unfold dict_get.
  destruct (t !! "transaction_date") as [[| | |s|]|] eqn:Et; try reflexivity.
  cbn [default from_option id].
  unfold validate_date. destruct (negb _); [done|]. cbv zeta.
  destruct (strptime (strip s) fmt_iso) eqn:E1.
  { exfalso. apply H. exists s. split; [done|]. left. by rewrite E1. }
  destruct (strptime (strip s) fmt_dmy) eqn:E2; [|done].
  exfalso. apply H. exists s. split; [done|]. right. by rewrite E2.
Qed.

Lemma validate_currency_rejects (t : record) :
  ~ currency_valid (t !! "currency") ->
  validate_currency (dict_get t "currency" (VStr ""))
  = Raise InvalidCurrencyError.
Proof.
  intros H. unfold dict_get.
  destruct (t !! "currency") as [[| | |s|]|] eqn:Et; try reflexivity.
  cbn [default from_option id].
  unfold validate_currency. destruct (negb (truthy _)); [done|]. cbv zeta.
  destruct (mem (upper (strip s)) VALID_CURRENCIES) eqn:E; [|done].
  exfalso. apply H. exists s. split; [done|]. by apply mem_elem_of.
Qed.

(** An amount is rejected when it breaks the rule, unless it parses to
    NaN: [nan < 0] is false, so the test for a negative amount lets it
    through. *)
Lemma validate_amount_rejects (t : record) :
  ~ amount_valid (t !! "amount") ->
  py_float (dict_get t "amount" VNone) <> Ok S754_nan ->
  validate_amount (dict_get t "amount" VNone) = Raise InvalidAmountError.
Proof.
  intros H Hnan. unfold dict_get in *.
  destruct (t !! "amount") as [v|]; [|done]. simpl in *.
  destruct (validate_amount v) as [b|e] eqn:E.
  - exfalso. pose proof E as (x & Hx & Hlt)%validate_amount_float.
    unfold validate_amount in E. destruct (none_or_blank v) eqn:Eb; [done|].
    apply H. exists v, x. repeat split; try done.
    apply ge_int_at_least. unfold lt_int in Hlt. unfold ge_int.
    rewrite Hx in Hnan. unfold compare_int in *.
    destruct x as [s|s| |s m e]; try done.
    + by destruct s.
    + by destruct (if 0 <=? e then _ else _).
  - by rewrite (validate_amount_raises _ _ E).
Qed.

Lemma validate_transaction_id_accepts (t : record) :
  id_valid (t !! "transaction_id") ->
  validate_transaction_id (dict_get t "transaction_id" (VStr "")) = Ok true.
Proof.
  intros (s & Hs & W). unfold dict_get. rewrite Hs.
  by apply validate_transaction_id_ok.
Qed.

Lemma validate_date_accepts (t : record) :
  date_valid (t !! "transaction_date") ->
  validate_date (dict_get t "transaction_date" (VStr "")) = Ok true.
Proof.
  intros (s & Hs & W). unfold dict_get. rewrite Hs. by apply validate_date_ok.
Qed.

Lemma validate_amount_accepts (t : record) :
  amount_valid (t !! "amount") ->
  validate_amount (dict_get t "amount" VNone) = Ok true.
Proof.
  intros (v & x & Hv & W1 & W2 & W3%ge_int_at_least). unfold dict_get.
  rewrite Hv. by eapply validate_amount_ok.
Qed.

(** Off NaN, the validator raises the error of the first violated field
    and nothing else. *)
Lemma validate_transaction_first_violation (t : record) (e : exn) :
  first_violation t e ->
  py_float (dict_get t "amount" VNone) <> Ok S754_nan ->
  validate_transaction t = (Raise e, t).
Proof.
  intros V Hnan. rewrite validate_transaction_unfold.
  destruct V as [H1|H1 H2|H1 H2 H3|H1 H2 H3 H4].
  - by rewrite validate_transaction_id_rejects.
  - by rewrite validate_transaction_id_accepts, validate_date_rejects.
  - by rewrite validate_transaction_id_accepts, validate_date_accepts,
      validate_amount_rejects.
  - by rewrite validate_transaction_id_accepts, validate_date_accepts,
      validate_amount_accepts, validate_currency_rejects.
Qed.

(** C2, at the amount ["nan"]: the rule "parseable and at least 0" is
    violated, so the first violated field is the amount, and yet
    [validate_transaction] returns and sets [amount_anomaly] to false. *)
Theorem validate_transaction_nan_amount :
  let t : record := <["amount" := VStr "nan"]> valid_transaction in
  first_violation t InvalidAmountError
  /\ validate_transaction t = (Ok tt, <["amount_anomaly" := VBool false]> t).
Proof.
  intros t. split; [|vm_compute; reflexivity].
  apply violation_amount.
  - exists "TXN0000001". split; [reflexivity|].
    exists "0000001". by vm_compute.
  - exists "2024-02-21". split; [reflexivity|]. left.
    exists (Date 2024 2 21). reflexivity.
  - intros (v & x & Hv & _ & Hx & Hge).
    assert (v = VStr "nan") as -> by (vm_compute in Hv; congruence).
    vm_compute in Hx. injection Hx as <-. exact Hge.
Qed.

(** ** The cleaner *)

Lemma clean_numeric_total v : exists x, clean_numeric v = Ok x.
Proof.
  unfold clean_numeric. destruct (none_or_blank v); [eauto|].
  destruct v as [|b|x|s|d]; simpl; eauto.
  destruct (PyFloat.of_string s); eauto.
Qed.

Lemma clean_field_total key v :
  (mem key ["account_type"; "direction"] = true ->
   is_str v = true \/ truthy v = false) ->
  exists v', clean_field key v = Ok v'.
Proof.
  intros H. unfold clean_field.
  repeat match goal with
         | |- context [if mem key ?l then _ else _] =>
             destruct (mem key l) eqn:?
         | |- context [if String.eqb key ?l then _ else _] =>
             destruct (String.eqb key l) eqn:?
         end; eauto.
  - destruct (clean_numeric_total v) as [x ->]. simpl. eauto.
  - destruct H as [H|H]; [done| |].
    + destruct v; try done. destruct (truthy _); simpl; eauto.
    + rewrite H. eauto.
Qed.

Lemma clean_transaction_dom (t c : record) :
  clean_transaction t = Ok c -> dom c = dom t.
Proof.
  intros H. apply set_eq. intros k. rewrite !elem_of_dom.
  pose proof (clean_transaction_ok _ _ H k) as P.
  destruct (t !! k) as [v|].
  - destruct P as (v' & _ & ->). split; eauto.
  - rewrite P. split; intros [? ?]; done.
Qed.

(** C4. [clean_transaction] returns a record with the fields of its
    input, whatever text they hold; a date that parses in neither format,
    a currency outside IDR, USD, SGD, and an amount or risk score that
    [float] rejects become [None]. *)
Theorem clean_transaction_never_fails (t : record) :
  optional_fields_textual t ->
  exists c, clean_transaction t = Ok c
    /\ dom c = dom t
    /\ (forall k s, mem k ["transaction_date"; "value_date"] = true ->
          t !! k = Some (VStr s) -> ~ parses_as_date (strip s) ->
          c !! k = Some VNone)
    /\ (forall s, t !! "currency" = Some (VStr s) ->
          upper (strip s) ∉ VALID_CURRENCIES -> c !! "currency" = Some VNone)
    /\ (forall k s, mem k ["amount"; "risk_score"] = true ->
          t !! k = Some (VStr s) -> PyFloat.of_string s = None ->
          c !! k = Some VNone).
Proof.
  intros W. destruct (clean_transaction_total t) as [c Hc].
  { intros k v Hk. apply clean_field_total. intros Hm. by eapply W. }
  exists c. split; [done|]. split; [by apply clean_transaction_dom|].
  split; [|split].
  - intros k s Hm Hk Hbad. pose proof (clean_transaction_ok _ _ Hc k) as P.
    rewrite Hk in P. destruct P as (v' & Hv' & ->). f_equal.
    assert (clean_field k (VStr s) = Ok (of_opt_str (normalize_date (VStr s)))) as E.
    { unfold mem in Hm. simpl in Hm.
      destruct (String.eqb_spec k "transaction_date") as [->|]; [done|].
      destruct (String.eqb_spec k "value_date") as [->|]; [done|]. done. }
    rewrite E in Hv'. injection Hv' as <-.
    unfold normalize_date. destruct (negb _); [done|]. simpl.
    destruct (strptime (strip s) fmt_iso) eqn:E1.
    { exfalso. apply Hbad. left. by rewrite E1. }
    destruct (strptime (strip s) fmt_dmy) eqn:E2; [|done].
    exfalso. apply Hbad. right. by rewrite E2.
  - intros s Hk Hbad. pose proof (clean_transaction_ok _ _ Hc "currency") as P.
    rewrite Hk in P. destruct P as (v' & Hv' & ->). f_equal.
    change (clean_field "currency" (VStr s))
      with (Ok (A:=value) (of_opt_str (normalize_currency (VStr s)))) in Hv'.
    injection Hv' as <-. unfold normalize_currency.
    destruct (negb _); [done|]. cbv zeta.
    destruct (mem (upper (strip (py_str (VStr s)))) _) eqn:E; [|done].
    exfalso. apply Hbad. by apply mem_elem_of.
  - intros k s Hm Hk Hbad. pose proof (clean_transaction_ok _ _ Hc k) as P.
    rewrite Hk in P. destruct P as (v' & Hv' & ->). f_equal.
    assert (clean_field k (VStr s)
            = (x <-! clean_numeric (VStr s); Ok (of_opt_float x))) as E.
    { unfold mem in Hm. simpl in Hm.
      destruct (String.eqb_spec k "amount") as [->|]; [done|].
      destruct (String.eqb_spec k "risk_score") as [->|]; [done|]. done. }
    rewrite E in Hv'. unfold clean_numeric in Hv'.
    destruct (none_or_blank (VStr s)); [by injection Hv' as <-|].
    simpl in Hv'. rewrite Hbad in Hv'. by injection Hv' as <-.
Qed.

(** Cleaning a cleaned record changes nothing when no date of the record
    lies before the year 1000: [clean_transaction] after
    [clean_transaction] ends as [clean_transaction] alone does. *)
Lemma clean_transaction_idempotent_from_1000 (t : record) :
  dates_from_1000 t ->
  (c <-! clean_transaction t; clean_transaction c) = clean_transaction t.
Proof.
  intros Hy. destruct (clean_transaction t) as [c|e] eqn:E; [|done]. simpl.
  apply clean_transaction_fixed. intros k v' Hk.
  pose proof (clean_transaction_ok _ _ E k) as P.
  destruct (t !! k) as [v|] eqn:Ek; [|congruence].
  destruct P as (v'' & Hv & Hc). rewrite Hk in Hc. injection Hc as <-.
  eapply clean_field_idem; [exact Hv|].
  intros Hm d Hd. eapply (Hy k Hm); [exact Ek|exact Hd].
Qed.

(** C5, at the fixture dated 01/01/0999.  The first cleaning stores the
    date as [strftime] prints it, [999-01-01]; [strptime] reads no date
    from that text, so the second cleaning stores [None]: cleaning the
    cleaned record does not give the cleaned record. *)
Theorem clean_transaction_year_999 :
  let once : record :=
    <["amount" := VFloat (S754_finite false 5498107894693888 (-40))]>
      (<["transaction_date" := VStr "999-01-01"]> valid_transaction) in
  let twice : record := <["transaction_date" := VNone]> once in
  clean_transaction early_transaction = Ok once
  /\ clean_transaction once = Ok twice
  /\ once <> twice.
Proof.
  intros once twice. split; [|split].
  - vm_compute. reflexivity.
  - vm_compute. reflexivity.
  - intros H. apply (f_equal (fun m : record => m !! "transaction_date")) in H.
    vm_compute in H. discriminate H.
Qed.

(** ** The transformer *)

(** C6. [is_large_transaction] is true exactly for an amount that is
    there and greater than 5,000,000; the threshold itself and [None] are
    not large. *)
Theorem is_large_transaction_iff (a : option float) :
  (is_large_transaction a = true
   <-> exists x, a = Some x /\ exceeds x 5000000)
  /\ is_large_transaction (Some five_million) = false
  /\ is_large_transaction None = false.
Proof.
  split; [|split; reflexivity].
  destruct a as [x|]; simpl.
  - rewrite gt_int_exceeds. split; [eauto|]. by intros (y & [= <-] & H).
  - split; [done|]. by intros (y & ? & _).
Qed.

Lemma upper_empty s : upper s = "" <-> s = "".
Proof. by destruct s. Qed.

(** The flag is as specified for [None], for the empty string and for any
    text that is not all whitespace. *)
Lemma is_crossborder_transaction_off_blank (c : value) :
  c = VNone \/ (exists s, c = VStr s /\ (s = "" \/ strip s <> "")) ->
  is_crossborder_transaction c = true <-> crossborder_spec c.
Proof.
  unfold is_crossborder_transaction, crossborder_spec.
  intros [->|(s & -> & [->|Hs])]; simpl.
  - split; [done|]. by intros (s & ? & _).
  - split; [done|]. intros (s & [= <-] & H & _). exfalso. by apply H.
  - assert (nonempty s = true) as -> by (destruct s; done). simpl.
    rewrite negb_true_iff. split.
    + intros H. exists s. split; [done|]. split.
      * by rewrite upper_empty.
      * intros E. rewrite E in H. discriminate H.
    + intros (s' & [= <-] & _ & H). by apply String.eqb_neq.
Qed.

(** C7, at a currency of three spaces: trimmed it is empty, so the
    specified flag is false, and [is_crossborder_transaction] returns
    true. *)
Theorem is_crossborder_transaction_whitespace :
  ~ crossborder_spec (VStr "   ")
  /\ is_crossborder_transaction (VStr "   ") = true.
Proof.
  split; [|reflexivity]. intros (s & [= <-] & H & _). by apply H.
Qed.



(** C10, as the code has it. The fields of the output are those of the
    input together with the three converted fields and the four derived
    ones, and every other field of the input keeps its value. *)
Theorem transform_transaction_frame (t : record) :
  dom (transform_transaction t) = dom t ∪ converted_keys ∪ derived_keys
  /\ forall k, k ∉ converted_keys ∪ derived_keys ->
               transform_transaction t !! k = t !! k.
Proof.
  unfold transform_transaction, converted_keys, derived_keys. split.
  - rewrite !dom_insert_L. apply set_eq. intros k.
    rewrite !elem_of_union, !elem_of_singleton. tauto.
  - intros k Hk. rewrite !lookup_insert_ne; [done|..]; intros <-; apply Hk;
      rewrite !elem_of_union, !elem_of_singleton; tauto.
Qed.

(** ** More on the validators *)

(** Every value that is not an accepted id is answered with
    [InvalidTransactionIDError], and a text is accepted exactly when,
    trimmed, it is [TXN] and seven digits: the newline that [$] would let
    pass cannot survive the [strip]. *)
Theorem validate_transaction_id_iff (v : value) :
  (validate_transaction_id v = Ok true
   <-> exists s, v = VStr s /\ txn_id_wellformed (strip s))
  /\ (validate_transaction_id v = Ok true
      \/ validate_transaction_id v = Raise InvalidTransactionIDError).
Proof.
  split.
  - split.
    + destruct v as [| | |s|]; try done. unfold validate_transaction_id.
      destruct (negb (truthy _)); [done|].
      destruct (match_transaction_id_pattern (strip s)) eqn:E; [|done].
      intros _. exists s. split; [done|].
      apply match_txn_id_wellformed; [apply strip_stripped|done].
    + intros (s & -> & H). by apply validate_transaction_id_ok.
  - destruct v as [| | |s|]; auto. unfold validate_transaction_id.
    destruct (negb (truthy _)); [auto|]. destruct (negb _); auto.
Qed.

(** The validator and the cleaner agree on dates: [validate_date] accepts
    a text exactly when [normalize_date] finds a date in it. *)
Theorem validate_date_iff_normalize (s : string) :
  validate_date (VStr s) = Ok true <-> is_Some (normalize_date (VStr s)).
Proof.
  unfold validate_date, normalize_date, py_str.
  destruct (negb (truthy (VStr s))).
  { split; [done|]. by intros [? ?]. }
  cbv zeta. destruct (strptime (strip s) fmt_iso); [by eauto|].
  destruct (strptime (strip s) fmt_dmy); [by eauto|].
  split; [done|]. by intros [? ?].
Qed.

(** The validator and the cleaner agree on currencies: [validate_currency]
    accepts a text exactly when [normalize_currency] keeps it. *)
Theorem validate_currency_iff_normalize (s : string) :
  validate_currency (VStr s) = Ok true
  <-> is_Some (normalize_currency (VStr s)).
Proof.
  unfold validate_currency, normalize_currency, py_str, VALID_CURRENCIES.
  destruct (negb (truthy (VStr s))).
  { split; [done|]. by intros [? ?]. }
  cbv zeta. destruct (negb (mem _ _)); [|by eauto].
  split; [done|]. by intros [? ?].
Qed.

(** An amount that [validate_amount] accepts is a number for the rest of
    the pipeline: [clean_numeric] returns that float, which is not below
    0, and [check_amount_anomaly] compares it with 10,000,000 without
    raising. *)
Theorem validate_amount_then_numeric (v : value) (b : bool) :
  validate_amount v = Ok b ->
  exists x, clean_numeric v = Ok (Some x)
    /\ lt_int x 0 = false
    /\ check_amount_anomaly v = Ok (gt_int x ANOMALY_THRESHOLD).
Proof.
  intros H. pose proof H as (x & Hx & Hlt)%validate_amount_float.
  exists x. unfold clean_numeric, check_amount_anomaly.
  unfold validate_amount in H. destruct (none_or_blank v); [done|].
  by rewrite Hx.
Qed.

Lemma validate_transaction_id_raises v e :
  validate_transaction_id v = Raise e -> e = InvalidTransactionIDError.
Proof.
  destruct v as [| | |s|]; try (simpl; congruence).
  unfold validate_transaction_id. destruct (negb (truthy _)); [congruence|].
  destruct (negb _); congruence.
Qed.

Lemma validate_date_raises v e :
  validate_date v = Raise e -> e = InvalidDateFormatError.
Proof.
  destruct v as [| | |s|]; simpl; try congruence.
  destruct (negb (nonempty s)); [congruence|].
  destruct (strptime _ fmt_iso); [done|].
  destruct (strptime _ fmt_dmy); [done|]. congruence.
Qed.

Lemma validate_currency_raises v e :
  validate_currency v = Raise e -> e = InvalidCurrencyError.
Proof.
  destruct v as [| | |s|]; try (simpl; congruence).
  unfold validate_currency. destruct (negb (truthy _)); [congruence|].
  cbv zeta. destruct (negb (mem _ _)); [congruence|done].
Qed.

(** [validate_transaction] ends in one of two ways: it raises one of its
    four errors, or it returns the record with [amount_anomaly] set to a
    boolean and nothing else touched. *)
Theorem validate_transaction_outcomes (t t' : record) (r : result unit) :
  validate_transaction t = (r, t') ->
  (exists e, r = Raise e /\ t' = t
     /\ e ∈ [InvalidTransactionIDError; InvalidDateFormatError;
             InvalidAmountError; InvalidCurrencyError])
  \/ (exists b, r = Ok tt /\ t' = <["amount_anomaly" := VBool b]> t).
Proof.
  rewrite validate_transaction_unfold.
  destruct (validate_transaction_id _) as [?|e] eqn:E1.
  2:{ intros [= <- <-]. left. exists e. apply validate_transaction_id_raises in E1 as ->.
      repeat split. apply list_elem_of_here. }
  destruct (validate_date _) as [?|e] eqn:E2.
  2:{ intros [= <- <-]. left. exists e. apply validate_date_raises in E2 as ->.
      repeat split. apply list_elem_of_further, list_elem_of_here. }
  destruct (validate_amount _) as [?|e] eqn:E3.
  2:{ intros [= <- <-]. left. exists e. apply validate_amount_raises in E3 as ->.
      repeat split. do 2 apply list_elem_of_further. apply list_elem_of_here. }
  destruct (validate_currency _) as [?|e] eqn:E4.
  2:{ intros [= <- <-]. left. exists e. apply validate_currency_raises in E4 as ->.
      repeat split. do 3 apply list_elem_of_further. apply list_elem_of_here. }
  apply validate_amount_float in E3 as (x & E5 & _).
  assert (dict_get t "amount" (VFloat (S754_zero false)) = dict_get t "amount" VNone)
    as ->.
  { unfold dict_get in *. destruct (t !! "amount"); [done|]. discriminate E5. }
  unfold check_amount_anomaly. rewrite E5. intros [= <- <-]. right. eauto.
Qed.

Lemma validate_transaction_id_inv v b :
  validate_transaction_id v = Ok b ->
  exists s, v = VStr s /\ txn_id_wellformed (strip s).
Proof.
  destruct v as [| | |s|]; try done. unfold validate_transaction_id.
  destruct (negb (truthy _)); [done|].
  destruct (match_transaction_id_pattern (strip s)) eqn:E; [|done].
  intros _. exists s. split; [done|].
  apply match_txn_id_wellformed; [apply strip_stripped|done].
Qed.

Lemma validate_date_inv v b :
  validate_date v = Ok b -> exists s, v = VStr s /\ parses_as_date (strip s).
Proof.
  destruct v as [| | |s|]; try done. unfold validate_date.
  destruct (negb (truthy _)); [done|]. cbv zeta.
  destruct (strptime (strip s) fmt_iso) eqn:E1.
  { intros _. exists s. split; [done|]. left. by rewrite E1. }
  destruct (strptime (strip s) fmt_dmy) eqn:E2; [|done].
  intros _. exists s. split; [done|]. right. by rewrite E2.
Qed.

Lemma validate_currency_inv v b :
  validate_currency v = Ok b ->
  exists s, v = VStr s /\ upper (strip s) ∈ VALID_CURRENCIES.
Proof.
  destruct v as [| | |s|]; try done. unfold validate_currency.
  destruct (negb (truthy _)); [done|]. cbv zeta.
  destruct (mem (upper (strip s)) VALID_CURRENCIES) eqn:E; [|done].
  intros _. exists s. split; [done|]. by apply mem_elem_of.
Qed.

(** A record that [validate_transaction] lets through has the id, the
    date and the currency the rules ask for, and an amount that [float]
    parses to something that is not below 0. *)
Theorem validate_transaction_sound (t t' : record) :
  validate_transaction t = (Ok tt, t') ->
  id_valid (t !! "transaction_id")
  /\ date_valid (t !! "transaction_date")
  /\ currency_valid (t !! "currency")
  /\ exists v x, t !! "amount" = Some v /\ py_float v = Ok x
                 /\ lt_int x 0 = false.
Proof.
  rewrite validate_transaction_unfold. unfold dict_get.
  destruct (validate_transaction_id _) as [b1|] eqn:E1; [|done].
  destruct (validate_date _) as [b2|] eqn:E2; [|done].
  destruct (validate_amount _) as [b3|] eqn:E3; [|done].
  destruct (validate_currency _) as [b4|] eqn:E4; [|done].
  intros _.
  apply validate_transaction_id_inv in E1 as (s1 & H1 & W1).
  apply validate_date_inv in E2 as (s2 & H2 & W2).
  apply validate_currency_inv in E4 as (s4 & H4 & W4).
  apply validate_amount_float in E3 as (x & Hx & Hlt).
  repeat split.
  - destruct (t !! "transaction_id") as [v|]; simpl in H1.
    + subst v. by exists s1.
    + injection H1 as <-. destruct W1 as (ds & E & _). discriminate E.
  - destruct (t !! "transaction_date") as [v|]; simpl in H2.
    + subst v. by exists s2.
    + injection H2 as <-. destruct W2 as [[? W]|[? W]]; discriminate W.
  - destruct (t !! "currency") as [v|]; simpl in H4.
    + subst v. by exists s4.
    + injection H4 as <-. apply mem_elem_of in W4. discriminate W4.
  - destruct (t !! "amount") as [v|]; [|discriminate Hx]. by exists v, x.
Qed.

(** ** More on the cleaner *)

Lemma re_match_month_slash m fmt r g :
  1 <= m <= 12 ->
  re_match (Dir_m :: Lit "/" :: fmt) (pad2 m (String "/" r)) g
  = re_match fmt r (Groups (gY g) m (gd g)).
Proof.
  intros Hm. revert fmt r g. by_cases m 1 12;
    intros fmt r g; cbn; by destruct (re_match fmt r _).
Qed.

Lemma re_match_day_slash d fmt r g :
  1 <= d <= 31 ->
  re_match (Dir_d :: Lit "/" :: fmt) (pad2 d (String "/" r)) g
  = re_match fmt r (Groups (gY g) (gm g) d).
Proof.
  intros Hd. revert fmt r g. by_cases d 1 31;
    intros fmt r g; cbn; by destruct (re_match fmt r _).
Qed.

Lemma strptime_dmy_text y m d :
  valid_ymd y m d = true ->
  strptime (dmy_text (Date y m d)) fmt_dmy = Some (Date y m d).
Proof.
  intros Hv. pose proof Hv as Hv'. unfold valid_ymd in Hv'.
  pose proof (days_in_month_le y m).
  repeat (apply andb_prop in Hv' as [Hv' ?]).
  unfold strptime, dmy_text, fmt_dmy. simpl year; simpl month; simpl day.
  rewrite re_match_day_slash by lia. rewrite re_match_month_slash by lia.
  rewrite re_match_year by lia. simpl. unfold make_date. by rewrite Hv.
Qed.

Lemma strptime_dmy_text_not_iso d : strptime (dmy_text d) fmt_iso = None.
Proof.
  unfold strptime, dmy_text, fmt_iso, pad2. simpl.
  rewrite !digit_char_digit. reflexivity.
Qed.

Lemma dmy_text_stripped d : stripped (dmy_text d).
Proof. split; simpl; apply digit_char_not_space. Qed.

(** What the later stages make of the text [normalize_date] returns for
    a date: from the year 1000 on it is read back as that date; before,
    nothing reads it. *)
Lemma strftime_iso_downstream d :
  valid_ymd (year d) (month d) (day d) = true ->
  (1000 <= year d ->
   normalize_date (VStr (strftime_iso d)) = Some (strftime_iso d)
   /\ validate_date (VStr (strftime_iso d)) = Ok true
   /\ convert_date_to_date_object (VStr (strftime_iso d)) = Some d)
  /\ (year d < 1000 ->
      normalize_date (VStr (strftime_iso d)) = None
      /\ validate_date (VStr (strftime_iso d)) = Raise InvalidDateFormatError
      /\ convert_date_to_date_object (VStr (strftime_iso d)) = None).
Proof.
  intros Hv. pose proof (normalize_date_again d Hv) as N.
  pose proof (truthy_strftime_iso d) as T.
  unfold validate_date, convert_date_to_date_object. rewrite T.
  cbn [negb py_str]. cbv zeta. split; intros Hy.
  - destruct (Z.leb_spec 1000 (year d)); [|lia].
    by rewrite strptime_strftime.
  - destruct (Z.leb_spec 1000 (year d)); [lia|].
    by destruct (strptime_strftime_short d Hv Hy) as [-> ->].
Qed.

(** The two accepted spellings of a date clean to the same text, the one
    [strftime] prints for the day: [DD/MM/YYYY] and [YYYY-MM-DD] both
    become it, and from the year 1000 on it is the [YYYY-MM-DD] text
    itself, which therefore stays as it is. *)
Theorem normalize_date_both_formats (d : date) :
  valid_ymd (year d) (month d) (day d) = true ->
  normalize_date (VStr (dmy_text d)) = Some (strftime_iso d)
  /\ normalize_date (VStr (isoformat d)) = Some (strftime_iso d)
  /\ (1000 <= year d -> strftime_iso d = isoformat d).
Proof.
  intros Hv. unfold normalize_date, py_str. simpl truthy. cbv iota zeta.
  split; [|split; [|apply strftime_iso_from_1000]].
  - rewrite (strip_id _ (dmy_text_stripped d)), strptime_dmy_text_not_iso.
    destruct d as [y m dd]. simpl in Hv. cbn [negb].
    by rewrite strptime_dmy_text.
  - cbn [negb]. by rewrite strptime_strip_isoformat.
Qed.

(** What [normalize_date] returns is the [strftime] text of the date its
    argument stands for.  When that date is of the year 1000 or later the
    text is a date for every later stage: it cleans to itself,
    [validate_date] accepts it and [convert_date_to_date_object] reads the
    date from it.  When the date is earlier, the text has fewer than four
    digits for the year and every later stage refuses it. *)
Theorem normalize_date_downstream (v : value) (s : string) :
  normalize_date v = Some s ->
  exists d, date_of v = Some d /\ s = strftime_iso d
    /\ (1000 <= year d ->
        normalize_date (VStr s) = Some s
        /\ validate_date (VStr s) = Ok true
        /\ convert_date_to_date_object (VStr s) = Some d)
    /\ (year d < 1000 ->
        normalize_date (VStr s) = None
        /\ validate_date (VStr s) = Raise InvalidDateFormatError
        /\ convert_date_to_date_object (VStr s) = None).
Proof.
  rewrite normalize_date_date_of.
  destruct (date_of v) as [d|] eqn:E; [|done]. intros [= <-].
  exists d. split; [done|]. split; [done|].
  apply strftime_iso_downstream. by eapply date_of_valid.
Qed.

(** [clean_merchant_category] never returns an empty or padded text, and
    returns its own results unchanged. *)
Theorem clean_merchant_category_shape (v : value) :
  clean_merchant_category v <> ""
  /\ stripped (clean_merchant_category v)
  /\ clean_merchant_category (VStr (clean_merchant_category v))
     = clean_merchant_category v.
Proof.
  split; [|split; [|apply clean_merchant_category_idem]].
  - unfold clean_merchant_category.
    destruct (negb (truthy v) || negb (nonempty (strip (py_str v)))) eqn:E;
      [done|].
    apply orb_false_elim in E as [_ E]. apply negb_false_iff in E.
    intros H. by rewrite H in E.
  - unfold clean_merchant_category.
    destruct (negb (truthy v) || _); [by split|]. apply strip_stripped.
Qed.

Lemma lstrip_blank s : lstrip s = "" -> all_chars is_space s = true.
Proof.
  induction s as [|c r IH]; simpl; [done|].
  destruct (is_space c); [exact IH|done].
Qed.

Lemma strip_blank_all s : strip s = "" -> all_chars is_space s = true.
Proof.
  unfold strip. induction s as [|c r IH]; simpl; [done|].
  destruct (is_space c) eqn:E; [exact IH|].
  simpl. destruct (rstrip r); [by rewrite E|done].
Qed.

Lemma all_space_skip_left s :
  all_chars is_space s = true -> all_chars is_space (PyFloat.skip_left s) = true.
Proof.
  induction s as [|c r IH]; simpl; [done|].
  intros [Hc Hr]%andb_prop. destruct (is_c_space c); [by apply IH|].
  simpl. by rewrite Hc, Hr.
Qed.

Lemma all_space_skip_right s :
  all_chars is_space s = true -> all_chars is_space (PyFloat.skip_right s) = true.
Proof.
  induction s as [|c r IH]; simpl; [done|].
  intros [Hc Hr]%andb_prop. specialize (IH Hr).
  destruct (PyFloat.skip_right r) as [|c' r'].
  - destruct (is_c_space c); simpl; [done|]. by rewrite Hc.
  - simpl in *. by rewrite Hc, IH.
Qed.

(** A text of whitespace is no number, whichever whitespace [float]
    skips. *)
Lemma of_string_blank s : strip s = "" -> PyFloat.of_string s = None.
Proof.
  intros H%strip_blank_all%all_space_skip_left%all_space_skip_right.
  unfold PyFloat.of_string.
  destruct (PyFloat.skip_right (PyFloat.skip_left s)) as [|c r]; [done|].
  simpl in H. apply andb_prop in H as [Hc _].
  destruct c as [[] [] [] [] [] [] [] []]; try discriminate Hc; reflexivity.
Qed.

(** The three conversions to a number are one function: on every value
    [convert_amount_to_float] and [convert_risk_score_to_float] return the
    same thing, and [clean_numeric] returns it too. *)
Theorem numeric_conversions_agree (v : value) :
  convert_risk_score_to_float v = convert_amount_to_float v
  /\ clean_numeric v = Ok (convert_amount_to_float v).
Proof.
  unfold convert_risk_score_to_float, convert_amount_to_float, clean_numeric.
  destruct v as [|b|x|s|d]; simpl; try done.
  destruct (nonempty (strip s)) eqn:E; simpl.
  - by destruct (PyFloat.of_string s).
  - rewrite of_string_blank; [done|]. by destruct (strip s).
Qed.

Lemma clean_field_raises key v e :
  clean_field key v = Raise e ->
  e = AttributeError /\ mem key ["account_type"; "direction"] = true
  /\ truthy v = true /\ is_str v = false.
Proof.
  unfold clean_field.
  repeat match goal with
         | |- context [if mem key ?l then _ else _] =>
             destruct (mem key l) eqn:?
         | |- context [if String.eqb key ?l then _ else _] =>
             destruct (String.eqb key l) eqn:?
         end; try done.
  - destruct (clean_numeric_total v) as [x ->]. done.
  - destruct (truthy v); [|done]. destruct v; simpl; try done; by intros [= <-].
Qed.

Lemma clean_field_attribute_error key v :
  mem key ["account_type"; "direction"] = true ->
  truthy v = true -> is_str v = false ->
  clean_field key v = Raise AttributeError.
Proof.
  intros Hm Ht Hs. unfold mem in Hm. simpl in Hm.
  assert (key = "account_type" \/ key = "direction") as [-> | ->].
  { destruct (String.eqb_spec key "account_type"); [by left|].
    destruct (String.eqb_spec key "direction"); [by right|done]. }
  - change (clean_field "account_type" v)
      with (if truthy v then upper_method (trim_whitespace v) else Ok v).
    rewrite Ht. by destruct v.
  - change (clean_field "direction" v)
      with (if truthy v then upper_method (trim_whitespace v) else Ok v).
    rewrite Ht. by destruct v.
Qed.

(** [clean_transaction] raises in one case only: something true that is
    not text is stored under [account_type] or [direction], and then the
    exception is the [AttributeError] of [.upper()]. *)
Theorem clean_transaction_raises_iff (t : record) :
  (forall e, clean_transaction t = Raise e -> e = AttributeError)
  /\ (clean_transaction t = Raise AttributeError
      <-> exists k v, t !! k = Some v
            /\ mem k ["account_type"; "direction"] = true
            /\ truthy v = true /\ is_str v = false).
Proof.
  assert (forall e, clean_transaction t = Raise e ->
            e = AttributeError
            /\ exists k v, t !! k = Some v
                 /\ mem k ["account_type"; "direction"] = true
                 /\ truthy v = true /\ is_str v = false) as R.
  { intros e (k & v & Hk & Hv)%clean_transaction_raise.
    apply clean_field_raises in Hv as (-> & ? & ? & ?). eauto 10. }
  split; [intros e H; by destruct (R e H)|]. split.
  - intros H. by destruct (R _ H).
  - intros (k & v & Hk & Hm & Ht & Hs).
    destruct (clean_transaction t) as [c|e] eqn:E.
    + pose proof (clean_transaction_ok _ _ E k) as P. rewrite Hk in P.
      destruct P as (v' & Hv' & _).
      rewrite clean_field_attribute_error in Hv' by done. discriminate Hv'.
    + by destruct (R e eq_refl) as [-> _].
Qed.

Lemma upper_stripped_fixed s :
  stripped (upper (strip s)) /\ upper (upper (strip s)) = upper (strip s).
Proof. split; [apply stripped_upper, strip_stripped|apply upper_idem]. Qed.

Lemma clean_field_shape key v v' :
  clean_field key v = Ok v' -> cleaned_shape key v'.
Proof.
  unfold clean_field, cleaned_shape.
  repeat match goal with
         | |- context [if mem key ?l then _ else _] => destruct (mem key l)
         | |- context [if String.eqb key ?l then _ else _] =>
             destruct (String.eqb key l)
         end;
    first
      [ solve [ intros [= <-] s Hs; destruct v; try done; injection Hs as <-;
                apply strip_stripped ]
      | solve [ intros [= <-];
                destruct (normalize_date v) as [s|] eqn:E; [|by left];
                apply normalize_date_canonical in E as (d & -> & Hd);
                right; eauto ]
      | solve [ intros [= <-];
                destruct (normalize_currency v) as [s|] eqn:E; [|by left];
                apply normalize_currency_valid in E as [-> | [-> | ->]]; auto ]
      | solve [ destruct (clean_numeric v) as [[x|]|]; simpl; try done;
                intros [= <-]; [right; eauto|by left] ]
      | solve [ intros [= <-]; exists (clean_merchant_category v);
                unfold clean_merchant_category;
                destruct (negb (truthy v) || negb (nonempty (strip (py_str v))))
                  eqn:E; [repeat split; done|];
                apply orb_false_elim in E as [_ E]; apply negb_false_iff in E;
                repeat split; [|apply strip_stripped..];
                intros H; by rewrite H in E ]
      | solve [ destruct (truthy v) eqn:E;
                [ destruct v as [| | |s|]; simpl; try done; intros [= <-]; left;
                  exists (upper (strip s)); split; [done|];
                  apply upper_stripped_fixed
                | intros [= <-]; by right ] ] ].
Qed.

(** Every field of a cleaned record has the shape of its kind: trimmed
    text, the [strftime] text of a calendar date or [None] (the year
    unpadded, so [YYYY-MM-DD] only from the year 1000 on), one of the
    three currencies or [None], a float or [None], a category that is not
    empty, a trimmed upper-case account type and direction. *)
Theorem clean_transaction_shapes (t c : record) (k : string) (v : value) :
  clean_transaction t = Ok c -> c !! k = Some v -> cleaned_shape k v.
Proof.
  intros Hc Hk. pose proof (clean_transaction_ok _ _ Hc k) as P.
  destruct (t !! k) as [v0|]; [|congruence].
  destruct P as (v' & Hv' & Hc'). rewrite Hk in Hc'. injection Hc' as <-.
  by eapply clean_field_shape.
Qed.

(** ** More on the transformer *)

Lemma weekday_range d : 0 <= weekday d < 7.
Proof. unfold weekday. apply Z.mod_pos_bound. lia. Qed.

(** [get_transaction_day] finds a name for every date: the index it
    computes is always one of the seven entries of its list. *)
Theorem get_transaction_day_named (d : date) :
  exists name, get_transaction_day (Some d) = Some name /\ name ∈ days
               /\ days !! Z.to_nat (weekday d) = Some name.
Proof.
  unfold get_transaction_day. pose proof (weekday_range d) as H.
  revert H. generalize (weekday d). intros w Hw.
  eexists. split; [reflexivity|].
  by_cases w 0 7; (split; [|reflexivity]); simpl; unfold days;
    rewrite !elem_of_cons; tauto.
Qed.

Lemma exceeds_mono x n m : n <= m -> exceeds x m -> exceeds x n.
Proof.
  intros Hnm. assert (inject_Z n <= inject_Z m)%Q as Q by by rewrite <- Zle_Qle.
  destruct x as [s|s| |s p e]; simpl; try done.
  - intros H. eapply Qle_lt_trans; [exact Q|exact H].
  - intros H. eapply Qle_lt_trans; [exact Q|exact H].
Qed.

(** The two thresholds are nested: an amount flagged as an anomaly by the
    validator is flagged as large by the transformer. *)
Theorem anomaly_is_large (v : value) :
  check_amount_anomaly v = Ok true ->
  exists x, py_float v = Ok x /\ is_large_transaction (Some x) = true.
Proof.
  unfold check_amount_anomaly. destruct (py_float v) as [x|]; [|done].
  simpl. intros [= H]. exists x. split; [done|].
  apply gt_int_exceeds. apply gt_int_exceeds in H.
  eapply exceeds_mono; [|exact H]. unfold ANOMALY_THRESHOLD. lia.
Qed.

Lemma math_log_positive x : exceeds x 0 -> exists y, math_log x = Ok y.
Proof.
  destruct x as [s|s| |s m e]; simpl.
  - unfold Qlt. simpl. lia.
  - intros ->. eauto.
  - done.
  - destruct s; [|eauto]. unfold dyadic. intros H. exfalso.
    assert (0 < 2 ^ e)%Q as P by (apply Qpower_0_lt; done).
    assert (inject_Z (Z.neg m) * 2 ^ e < 0)%Q as Q.
    { rewrite <- (Qmult_0_l (2 ^ e)). apply Qmult_lt_r; [done|].
      unfold Qlt. simpl. lia. }
    apply (Qlt_irrefl 0). eapply Qlt_trans; [exact H|exact Q].
Qed.

(** A large transaction always has a logarithm: when
    [is_large_transaction] is true, [calculate_amount_log] is not [None]. *)
Theorem large_has_amount_log (a : option float) :
  is_large_transaction a = true ->
  exists y, calculate_amount_log a = Some y.
Proof.
  destruct a as [x|]; [|done]. simpl. intros H%gt_int_exceeds.
  assert (exceeds x 0) as P by (eapply exceeds_mono; [|exact H]; lia).
  pose proof (exceeds_not_at_most _ _ P) as N.
  rewrite <- le_int_at_most in N. destruct (le_int x 0); [done|].
  destruct (math_log_positive x P) as [y ->]. eauto.
Qed.

(** On a cleaned currency the cross-border flag is exact: it is true for
    USD and SGD and false for IDR and for the [None] of an unknown
    currency, so the whitespace case cannot come from the cleaner. *)
Theorem is_crossborder_after_clean (v : value) :
  is_crossborder_transaction (of_opt_str (normalize_currency v)) = true
  <-> normalize_currency v = Some "USD" \/ normalize_currency v = Some "SGD".
Proof.
  destruct (normalize_currency v) as [s|] eqn:E.
  - apply normalize_currency_valid in E as [-> | [-> | ->]];
      (split; [intros H; vm_compute in H|intros [H|H]]);
      first [discriminate H | by left | by right | reflexivity].
  - split; [done|]. intros [H|H]; discriminate H.
Qed.

(** ** The three stages together *)

(** What is known of a record that the validator returned. *)
Lemma validate_transaction_ok_inv (t t1 : record) :
  validate_transaction t = (Ok tt, t1) ->
  exists sid sdt scur v x,
    t !! "transaction_id" = Some (VStr sid) /\ txn_id_wellformed (strip sid)
    /\ t !! "transaction_date" = Some (VStr sdt) /\ parses_as_date (strip sdt)
    /\ t !! "currency" = Some (VStr scur)
    /\ upper (strip scur) ∈ VALID_CURRENCIES
    /\ t !! "amount" = Some v /\ none_or_blank v = false /\ py_float v = Ok x
    /\ lt_int x 0 = false
    /\ t1 = <["amount_anomaly" := VBool (gt_int x ANOMALY_THRESHOLD)]> t.
Proof.
  rewrite validate_transaction_unfold. unfold dict_get.
  destruct (validate_transaction_id _) as [b1|] eqn:E1; [|done].
  destruct (validate_date _) as [b2|] eqn:E2; [|done].
  destruct (validate_amount _) as [b3|] eqn:E3; [|done].
  destruct (validate_currency _) as [b4|] eqn:E4; [|done].
  apply validate_transaction_id_inv in E1 as (s1 & H1 & W1).
  apply validate_date_inv in E2 as (s2 & H2 & W2).
  apply validate_currency_inv in E4 as (s4 & H4 & W4).
  pose proof E3 as (x & Hx & Hlt)%validate_amount_float.
  unfold validate_amount in E3.
  destruct (none_or_blank (default VNone (t !! "amount"))) eqn:Eb; [done|].
  destruct (t !! "transaction_id") as [v1|]; simpl in H1.
  2:{ injection H1 as <-. destruct W1 as (ds & E & _). discriminate E. }
  destruct (t !! "transaction_date") as [v2|]; simpl in H2.
  2:{ injection H2 as <-. destruct W2 as [[? W]|[? W]]; discriminate W. }
  destruct (t !! "currency") as [v4|]; simpl in H4.
  2:{ injection H4 as <-. apply mem_elem_of in W4. discriminate W4. }
  destruct (t !! "amount") as [v|]; [|discriminate Hx]. simpl in *.
  subst v1 v2 v4. unfold check_amount_anomaly. rewrite Hx. simpl.
  intros [= <-]. by exists s1, s2, s4, v, x.
Qed.

Lemma clean_transaction_lookup (t c : record) k v :
  clean_transaction t = Ok c -> t !! k = Some v ->
  exists v', clean_field k v = Ok v' /\ c !! k = Some v'.
Proof.
  intros Hc Hk. pose proof (clean_transaction_ok _ _ Hc k) as P.
  by rewrite Hk in P.
Qed.

Lemma parses_as_date_normalize s :
  parses_as_date (strip s) ->
  exists d, date_of (VStr s) = Some d
            /\ normalize_date (VStr s) = Some (strftime_iso d)
            /\ valid_ymd (year d) (month d) (day d) = true.
Proof.
  intros H. pose proof (parses_as_date_nonempty _ H) as Hn.
  rewrite normalize_date_date_of.
  destruct (date_of (VStr s)) as [d|] eqn:E.
  - exists d. split; [done|]. split; [done|]. by eapply date_of_valid.
  - exfalso. unfold date_of, py_str in E. simpl in E. rewrite Hn in E.
    simpl in E. destruct H as [[d H]|[d H]].
    + by rewrite H in E.
    + destruct (strptime (strip s) fmt_iso); [done|]. by rewrite H in E.
Qed.

(** The fields of a validated record after cleaning. *)
Lemma validated_cleaned_fields (t t1 c : record) :
  validate_transaction t = (Ok tt, t1) -> clean_transaction t1 = Ok c ->
  exists sid d cur x,
    c !! "transaction_id" = Some (VStr (strip sid))
    /\ txn_id_wellformed (strip sid)
    /\ (exists v, t !! "transaction_date" = Some v /\ date_of v = Some d)
    /\ c !! "transaction_date" = Some (VStr (strftime_iso d))
    /\ valid_ymd (year d) (month d) (day d) = true
    /\ c !! "currency" = Some (VStr cur) /\ cur ∈ VALID_CURRENCIES
    /\ c !! "amount" = Some (VFloat x) /\ lt_int x 0 = false
    /\ c !! "amount_anomaly" = Some (VBool (gt_int x ANOMALY_THRESHOLD)).
Proof.
  intros (sid & sdt & scur & v & x & Hid & Wid & Hdt & Wdt & Hcur & Wcur
          & Ham & Wb & Wx & Wlt & ->)%validate_transaction_ok_inv Hc.
  destruct (parses_as_date_normalize _ Wdt) as (d & Dd & Hd & Vd).
  exists sid, d, (upper (strip scur)), x.
  destruct (clean_transaction_lookup _ _ "transaction_id" (VStr sid) Hc)
    as (v1 & E1 & ->); [by rewrite lookup_insert_ne|].
  destruct (clean_transaction_lookup _ _ "transaction_date" (VStr sdt) Hc)
    as (v2 & E2 & ->); [by rewrite lookup_insert_ne|].
  destruct (clean_transaction_lookup _ _ "currency" (VStr scur) Hc)
    as (v3 & E3 & ->); [by rewrite lookup_insert_ne|].
  destruct (clean_transaction_lookup _ _ "amount" v Hc)
    as (v4 & E4 & ->); [by rewrite lookup_insert_ne|].
  destruct (clean_transaction_lookup _ _ "amount_anomaly"
              (VBool (gt_int x ANOMALY_THRESHOLD)) Hc)
    as (v5 & E5 & ->); [by rewrite lookup_insert_eq|].
  change (clean_field "transaction_id" (VStr sid))
    with (Ok (A:=value) (VStr (strip sid))) in E1.
  change (clean_field "transaction_date" (VStr sdt))
    with (Ok (A:=value) (of_opt_str (normalize_date (VStr sdt)))) in E2.
  change (clean_field "currency" (VStr scur))
    with (Ok (A:=value) (of_opt_str (normalize_currency (VStr scur)))) in E3.
  change (clean_field "amount" v)
    with (x <-! clean_numeric v; Ok (of_opt_float x)) in E4.
  change (clean_field "amount_anomaly" (VBool (gt_int x ANOMALY_THRESHOLD)))
    with (Ok (A:=value) (VBool (gt_int x ANOMALY_THRESHOLD))) in E5.
  injection E1 as <-. injection E5 as <-. rewrite Hd in E2. injection E2 as <-.
  unfold clean_numeric in E4. rewrite Wb, Wx in E4. injection E4 as <-.
  assert (normalize_currency (VStr scur) = Some (upper (strip scur))) as Hn.
  { unfold normalize_currency, py_str. apply mem_elem_of in Wcur.
    assert (nonempty scur = true) as Hne.
    { apply strip_nonempty. destruct (strip scur); [discriminate Wcur|done]. }
    simpl truthy. rewrite Hne. cbn [negb]. cbv zeta.
    unfold VALID_CURRENCIES in Wcur. by rewrite Wcur. }
  rewrite Hn in E3. injection E3 as <-. repeat split; eauto.
Qed.

(** [transform_transaction] with every value computed from its input. *)
Lemma transform_transaction_eq (t : record) :
  let d := convert_date_to_date_object (dict_get t "transaction_date" VNone) in
  let a := convert_amount_to_float (dict_get t "amount" VNone) in
  let r := convert_risk_score_to_float (dict_get t "risk_score" VNone) in
  transform_transaction t =
  <["amount_log" := of_opt_float (calculate_amount_log a)]>
  (<["transaction_day" := of_opt_str (get_transaction_day d)]>
  (<["is_crossborder" :=
       VBool (is_crossborder_transaction (dict_get t "currency" (VStr "")))]>
  (<["is_large_transaction" := VBool (is_large_transaction a)]>
  (<["risk_score" := of_opt_float r]>
  (<["amount" := of_opt_float a]>
  (<["transaction_date" := of_opt_date d]> t)))))).
Proof.
  unfold transform_transaction, dict_get. cbv zeta.
  by rewrite !lookup_insert_ne by done.
Qed.

Lemma convert_date_of_converted (v : value) :
  convert_date_to_date_object
    (of_opt_date (convert_date_to_date_object v))
  = convert_date_to_date_object v.
Proof.
  destruct (convert_date_to_date_object v) as [d|] eqn:E; [|done].
  unfold convert_date_to_date_object in E.
  destruct (negb (truthy v)); [done|].
  apply strptime_valid in E.
  unfold convert_date_to_date_object. simpl. by apply strptime_strip_isoformat.
Qed.

Lemma convert_amount_of_converted (o : option float) :
  convert_amount_to_float (of_opt_float o) = o.
Proof. by destruct o. Qed.

Lemma convert_risk_score_of_converted (o : option float) :
  convert_risk_score_to_float (of_opt_float o) = o.
Proof. by destruct o. Qed.

(** Transforming twice is transforming once: the converted date, amount
    and risk score convert to themselves, so every derived field is
    computed again with the same result. *)
Theorem transform_transaction_idempotent (t : record) :
  transform_transaction (transform_transaction t) = transform_transaction t.
Proof.
  rewrite (transform_transaction_eq (transform_transaction t)).
  rewrite (transform_transaction_eq t). cbv zeta.
  unfold dict_get.
  repeat (first [rewrite lookup_insert_eq | rewrite lookup_insert_ne by done]).
  cbn [default from_option id].
  rewrite convert_date_of_converted, convert_amount_of_converted,
    convert_risk_score_of_converted.
  apply map_eq. intros k.
  destruct (decide (k = "amount_log")) as [->|];
    [|destruct (decide (k = "transaction_day")) as [->|];
    [|destruct (decide (k = "is_crossborder")) as [->|];
    [|destruct (decide (k = "is_large_transaction")) as [->|];
    [|destruct (decide (k = "risk_score")) as [->|];
    [|destruct (decide (k = "amount")) as [->|];
    [|destruct (decide (k = "transaction_date")) as [->|]]]]]]];
    repeat (first [rewrite lookup_insert_eq
                  |rewrite lookup_insert_ne by congruence]);
    reflexivity.
Qed.

Lemma in_valid_currencies cur :
  cur ∈ VALID_CURRENCIES -> cur = "IDR" \/ cur = "USD" \/ cur = "SGD".
Proof.
  unfold VALID_CURRENCIES. rewrite !elem_of_cons, elem_of_nil. tauto.
Qed.

(** Validation after cleaning turns on the year of the date.  For a
    record that the validator accepted and the cleaner cleaned, with a
    date of the year 1000 or later, validating the cleaned record changes
    nothing and succeeds, anomaly flag included; with an earlier date the
    cleaned record is refused for its date. *)
Theorem validate_after_clean (t t1 c : record) :
  validate_transaction t = (Ok tt, t1) -> clean_transaction t1 = Ok c ->
  exists v d, t !! "transaction_date" = Some v /\ date_of v = Some d
    /\ (1000 <= year d -> validate_transaction c = (Ok tt, c))
    /\ (year d < 1000 ->
        validate_transaction c = (Raise InvalidDateFormatError, c)).
Proof.
  intros Hv Hc.
  destruct (validated_cleaned_fields _ _ _ Hv Hc)
    as (sid & d & cur & x & Hid & Wid & (v & Hv0 & Dd) & Hdt & Wd & Hcur & Wcur
        & Ham & Wlt & Han).
  exists v, d. split; [done|]. split; [done|].
  destruct (strftime_iso_downstream d Wd) as [Hlate Hearly].
  rewrite validate_transaction_unfold. unfold dict_get.
  rewrite Hid, Hdt, Hcur, Ham. cbn [default from_option id].
  rewrite validate_transaction_id_ok by (by rewrite strip_idem).
  split; intros Hy.
  - destruct (Hlate Hy) as (_ & -> & _).
    assert (validate_amount (VFloat x) = Ok true) as ->.
    { unfold validate_amount. simpl. by rewrite Wlt. }
    assert (validate_currency (VStr cur) = Ok true) as ->.
    { apply in_valid_currencies in Wcur as [-> | [-> | ->]]; reflexivity. }
    unfold check_amount_anomaly. simpl. by rewrite insert_id.
  - by destruct (Hearly Hy) as (_ & -> & _).
Qed.

(** The features of a record that went through the validator and the
    cleaner: the transformer finds a float that is not below 0 and
    compares it with 5,000,000, keeps the anomaly flag of the validator,
    and marks as cross-border exactly the currencies other than IDR among
    the three.  For a date of the year 1000 or later it finds the date and
    the name of its day; for an earlier date it finds neither. *)
Theorem pipeline_features (t t1 c : record) :
  validate_transaction t = (Ok tt, t1) -> clean_transaction t1 = Ok c ->
  exists x v d cur,
    let out := transform_transaction c in
    out !! "amount" = Some (VFloat x) /\ lt_int x 0 = false
    /\ out !! "amount_anomaly" = Some (VBool (gt_int x 10000000))
    /\ out !! "is_large_transaction" = Some (VBool (gt_int x 5000000))
    /\ t !! "transaction_date" = Some v /\ date_of v = Some d
    /\ (1000 <= year d ->
        out !! "transaction_date" = Some (VDate d)
        /\ out !! "transaction_day"
           = Some (VStr (nth (Z.to_nat (weekday d)) days "")))
    /\ (year d < 1000 ->
        out !! "transaction_date" = Some VNone
        /\ out !! "transaction_day" = Some VNone)
    /\ out !! "currency" = Some (VStr cur) /\ cur ∈ VALID_CURRENCIES
    /\ out !! "is_crossborder" = Some (VBool (negb (String.eqb cur "IDR"))).
Proof.
  intros Hv Hc.
  destruct (validated_cleaned_fields _ _ _ Hv Hc)
    as (sid & d & cur & x & Hid & Wid & (v & Hv0 & Dd) & Hdt & Wd & Hcur & Wcur
        & Ham & Wlt & Han).
  destruct (strftime_iso_downstream d Wd) as [Hlate Hearly].
  exists x, v, d, cur. cbv zeta. rewrite transform_transaction_eq. cbv zeta.
  unfold dict_get. rewrite Hdt, Ham, Hcur. cbn [default from_option id].
  simpl convert_amount_to_float.
  repeat (first [rewrite lookup_insert_eq | rewrite lookup_insert_ne by done]).
  split; [done|]. split; [done|]. split; [done|]. split; [done|].
  split; [done|]. split; [done|].
  split; [|split; [|split; [done|split; [done|]]]].
  - intros Hy. destruct (Hlate Hy) as (_ & _ & ->). done.
  - intros Hy. destruct (Hearly Hy) as (_ & _ & ->). done.
  - apply in_valid_currencies in Wcur as [-> | [-> | ->]]; reflexivity.
Qed.

(** ** The optional checks and the cleaning of their fields *)

Lemma upper_strip_fixed s :
  upper (strip (upper (strip s))) = upper (strip s).
Proof.
  rewrite (strip_id (upper (strip s)))
    by apply stripped_upper, strip_stripped.
  apply upper_idem.
Qed.

Lemma clean_optional_text key s :
  key = "direction" \/ key = "account_type" -> s <> "" ->
  clean_field key (VStr s) = Ok (VStr (upper (strip s))).
Proof.
  intros [-> | ->] Hs; destruct s as [|a s]; try done; reflexivity.
Qed.

(** Extra (etl/validator.py [validate_direction], [validate_account_type];
    etl/cleaner.py [clean_transaction]): for a non-empty text, the optional
    check accepts exactly when the value that [clean_transaction] stores
    under the field is one of the allowed constants: DEBIT or CREDIT for
    [direction]; SAVINGS, CURRENT, CREDIT_CARD or LOAN for [account_type]. *)
Theorem optional_checks_iff_cleaned (s : string) :
  s <> "" ->
  (validate_direction (VStr s) = true
   <-> exists u, clean_field "direction" (VStr s) = Ok (VStr u)
                 /\ u ∈ VALID_DIRECTIONS)
  /\ (validate_account_type (VStr s) = true
      <-> exists u, clean_field "account_type" (VStr s) = Ok (VStr u)
                    /\ u ∈ VALID_ACCOUNT_TYPES).
Proof.
  intros Hs.
  rewrite !clean_optional_text by auto.
  assert (Ht : truthy (VStr s) = true) by (by destruct s).
  unfold validate_direction, validate_account_type. rewrite Ht.
  split.
  - destruct (mem (upper (strip s)) VALID_DIRECTIONS) eqn:E; simpl.
    + apply mem_elem_of in E. split; [eauto|done].
    + split; [done|]. intros (u & [= <-] & Hu).
      apply mem_elem_of in Hu. congruence.
  - destruct (mem (upper (strip s)) VALID_ACCOUNT_TYPES) eqn:E; simpl.
    + apply mem_elem_of in E. split; [eauto|done].
    + split; [done|]. intros (u & [= <-] & Hu).
      apply mem_elem_of in Hu. congruence.
Qed.

(** Extra (etl/validator.py [validate_direction], [validate_account_type];
    etl/cleaner.py [clean_transaction]): cleaning never loses the
    acceptance of an optional field: when the check accepts a value and
    the cleaner stores [v'] for it, the check accepts [v'] too.  (The
    converse fails: a text of blanks is rejected, its cleaned form [''] is
    accepted.) *)
Theorem optional_checks_after_clean (v v' : value) :
  (clean_field "direction" v = Ok v' ->
   validate_direction v = true -> validate_direction v' = true)
  /\ (clean_field "account_type" v = Ok v' ->
      validate_account_type v = true -> validate_account_type v' = true)
  /\ validate_direction (VStr "  ") = false
  /\ clean_field "direction" (VStr "  ") = Ok (VStr "")
  /\ validate_direction (VStr "") = true.
Proof.
  split; [|split; [|by vm_compute]].
  - destruct v as [| b | x | s | d]; try (intros [= <-]; done).
    + destruct b; [done|]. by intros [= <-].
    + cbv [clean_field mem existsb String.eqb Ascii.eqb Bool.eqb orb].
      cbn [truthy]. destruct (PyFloat.truthy x); [done|]. by intros [= <-].
    + destruct (decide (s = "")) as [-> | Hs]; [by intros [= <-]|].
      rewrite clean_optional_text by auto. intros [= <-].
      unfold validate_direction.
      replace (truthy (VStr s)) with true by (by destruct s).
      rewrite upper_strip_fixed.
      destruct (mem (upper (strip s)) VALID_DIRECTIONS); [|done].
      by destruct (truthy _).
  - destruct v as [| b | x | s | d]; try (intros [= <-]; done).
    + destruct b; [done|]. by intros [= <-].
    + cbv [clean_field mem existsb String.eqb Ascii.eqb Bool.eqb orb].
      cbn [truthy]. destruct (PyFloat.truthy x); [done|]. by intros [= <-].
    + destruct (decide (s = "")) as [-> | Hs]; [by intros [= <-]|].
      rewrite clean_optional_text by auto. intros [= <-].
      unfold validate_account_type.
      replace (truthy (VStr s)) with true by (by destruct s).
      rewrite upper_strip_fixed.
      destruct (mem (upper (strip s)) VALID_ACCOUNT_TYPES); [|done].
      by destruct (truthy _).
Qed.

End Etl.

(** ** The theorems at concrete records *)

Lemma validate_transaction_accepts_witness :
  exists anomaly : bool,
    validate_transaction valid_transaction
    = (Ok tt, <["amount_anomaly" := VBool anomaly]> valid_transaction)
    /\ (anomaly = true
        <-> exceeds (S754_finite false 5498107894693888 (-40)) 10000000).
Proof.
  apply (validate_transaction_accepts valid_transaction
           "TXN0000001" "2024-02-21" "IDR" (VStr "5000.50")).
  - reflexivity.
  - exists "0000001". vm_compute. repeat split.
  - reflexivity.
  - left. exists (Date 2024 2 21). reflexivity.
  - reflexivity.
  - reflexivity.
  - vm_compute. reflexivity.
  - apply ge_int_at_least. reflexivity.
  - reflexivity.
  - apply mem_elem_of. reflexivity.
Defined.

Lemma validate_transaction_atomic_witness :
  let t : record := <["transaction_id" := VStr "INVALID123"]> valid_transaction in
  t = t /\ (t !! "amount_anomaly" = None -> t !! "amount_anomaly" = None).
Proof.
  intros t.
  apply (validate_transaction_atomic t t InvalidTransactionIDError).
  vm_compute. reflexivity.
Defined.

Lemma validate_transaction_keeps_optional_witness :
  let t : record := <["direction" := VStr "sideways"]> valid_transaction in
  exists t', validate_transaction t = (Ok tt, t')
    /\ t' !! "direction" = t !! "direction"
    /\ t' !! "account_type" = t !! "account_type"
    /\ forall k, k <> "amount_anomaly" -> t' !! k = t !! k.
Proof.
  intros t. apply (validate_transaction_keeps_optional t).
  - vm_compute. reflexivity.
  - vm_compute. reflexivity.
  - vm_compute. reflexivity.
  - vm_compute. reflexivity.
  - left. exists "sideways". split; [reflexivity|].
    intros H%mem_elem_of. discriminate H.
Defined.

Lemma valid_transaction_textual : optional_fields_textual valid_transaction.
Proof.
  intros k v Hk Hm. unfold mem in Hm. simpl in Hm.
  destruct (String.eqb_spec k "account_type") as [->|_].
  { vm_compute in Hk. injection Hk as <-. left. reflexivity. }
  destruct (String.eqb_spec k "direction") as [->|_]; [|discriminate Hm].
  vm_compute in Hk. injection Hk as <-. left. reflexivity.
Defined.

Lemma clean_transaction_never_fails_witness :
  exists c, clean_transaction sample_repr valid_transaction = Ok c
    /\ dom c = dom valid_transaction.
Proof.
  destruct (clean_transaction_never_fails sample_repr valid_transaction
              valid_transaction_textual) as (c & H1 & H2 & _).
  exists c. split; [exact H1|exact H2].
Defined.


(** C10 as stated fails on the record of the test
    [test_transform_crossborder_flag_usd], which has no [risk_score]: the
    output has that field too, beside the four derived ones. *)
Lemma transform_transaction_adds_risk_score :
  let t : record := {[ "transaction_date" := VStr "2024-02-21";
                       "amount" := VStr "5000.50";
                       "currency" := VStr "USD" ]} in
  dom (transform_transaction sample_repr sample_log t) <> dom t ∪ derived_keys.
Proof.
  intros t H.
  assert ("risk_score" ∈ dom (transform_transaction sample_repr sample_log t))
    as Hin.
  { apply elem_of_dom. vm_compute. eauto. }
  rewrite H in Hin. apply elem_of_union in Hin as [Hin|Hin].
  - apply elem_of_dom in Hin as [v Hv]. vm_compute in Hv. discriminate Hv.
  - unfold derived_keys in Hin.
    rewrite !elem_of_union, !elem_of_singleton in Hin.
    destruct Hin as [[[Hin|Hin]|Hin]|Hin]; discriminate Hin.
Qed.

Lemma validate_amount_then_numeric_witness :
  exists x, clean_numeric (VStr "5000.50") = Ok (Some x)
    /\ lt_int x 0 = false
    /\ check_amount_anomaly (VStr "5000.50") = Ok (gt_int x ANOMALY_THRESHOLD).
Proof.
  apply (validate_amount_then_numeric (VStr "5000.50") true).
  vm_compute. reflexivity.
Defined.

Lemma validate_transaction_outcomes_witness :
  (exists e, Ok tt = Raise e
     /\ <["amount_anomaly" := VBool false]> valid_transaction = valid_transaction
     /\ e ∈ [InvalidTransactionIDError; InvalidDateFormatError;
             InvalidAmountError; InvalidCurrencyError])
  \/ (exists b, Ok tt = Ok tt
        /\ <["amount_anomaly" := VBool false]> valid_transaction
           = <["amount_anomaly" := VBool b]> valid_transaction).
Proof.
  apply (validate_transaction_outcomes valid_transaction).
  vm_compute. reflexivity.
Defined.

Lemma validate_transaction_sound_witness :
  id_valid (valid_transaction !! "transaction_id")
  /\ date_valid (valid_transaction !! "transaction_date")
  /\ currency_valid (valid_transaction !! "currency")
  /\ exists v x, valid_transaction !! "amount" = Some v /\ py_float v = Ok x
                 /\ lt_int x 0 = false.
Proof.
  apply (validate_transaction_sound valid_transaction
           (<["amount_anomaly" := VBool false]> valid_transaction)).
  vm_compute. reflexivity.
Defined.

Lemma normalize_date_both_formats_witness :
  normalize_date sample_repr (VStr "21/02/2024") = Some "2024-02-21"
  /\ normalize_date sample_repr (VStr "2024-02-21") = Some "2024-02-21"
  /\ (1000 <= year (Date 2024 2 21) ->
      strftime_iso (Date 2024 2 21) = isoformat (Date 2024 2 21)).
Proof.
  apply (normalize_date_both_formats sample_repr (Date 2024 2 21)).
  reflexivity.
Defined.

Lemma normalize_date_downstream_witness :
  exists d, date_of sample_repr (VStr " 21/02/2024 ") = Some d
    /\ "2024-02-21" = strftime_iso d
    /\ (1000 <= year d ->
        normalize_date sample_repr (VStr "2024-02-21") = Some "2024-02-21"
        /\ validate_date (VStr "2024-02-21") = Ok true
        /\ convert_date_to_date_object sample_repr (VStr "2024-02-21")
           = Some d)
    /\ (year d < 1000 ->
        normalize_date sample_repr (VStr "2024-02-21") = None
        /\ validate_date (VStr "2024-02-21") = Raise InvalidDateFormatError
        /\ convert_date_to_date_object sample_repr (VStr "2024-02-21")
           = None).
Proof.
  apply (normalize_date_downstream sample_repr (VStr " 21/02/2024 ")).
  vm_compute. reflexivity.
Defined.

Lemma clean_transaction_shapes_witness :
  cleaned_shape "currency" (VStr "IDR").
Proof.
  apply (clean_transaction_shapes sample_repr validated_transaction
           cleaned_transaction "currency" (VStr "IDR")).
  - vm_compute. reflexivity.
  - reflexivity.
Defined.

Lemma anomaly_is_large_witness :
  exists x, py_float (VStr "15000000.00") = Ok x
            /\ is_large_transaction (Some x) = true.
Proof.
  apply (anomaly_is_large (VStr "15000000.00")). vm_compute. reflexivity.
Defined.

Lemma large_has_amount_log_witness :
  exists y,
    calculate_amount_log sample_log
      (Some (S754_finite false 8053063680000000 (-29))) = Some y.
Proof.
  apply (large_has_amount_log sample_log
           (Some (S754_finite false 8053063680000000 (-29)))).
  reflexivity.
Defined.

Lemma validate_after_clean_witness :
  exists v d,
    valid_transaction !! "transaction_date" = Some v
    /\ date_of sample_repr v = Some d
    /\ (1000 <= year d ->
        validate_transaction cleaned_transaction
        = (Ok tt, cleaned_transaction))
    /\ (year d < 1000 ->
        validate_transaction cleaned_transaction
        = (Raise InvalidDateFormatError, cleaned_transaction)).
Proof.
  apply (validate_after_clean sample_repr valid_transaction
           validated_transaction cleaned_transaction).
  - vm_compute. reflexivity.
  - vm_compute. reflexivity.
Defined.

Lemma pipeline_features_witness :
  exists x v d cur,
    let out := transform_transaction sample_repr sample_log
                 cleaned_transaction in
    out !! "amount" = Some (VFloat x) /\ lt_int x 0 = false
    /\ out !! "amount_anomaly" = Some (VBool (gt_int x 10000000))
    /\ out !! "is_large_transaction" = Some (VBool (gt_int x 5000000))
    /\ valid_transaction !! "transaction_date" = Some v
    /\ date_of sample_repr v = Some d
    /\ (1000 <= year d ->
        out !! "transaction_date" = Some (VDate d)
        /\ out !! "transaction_day"
           = Some (VStr (nth (Z.to_nat (weekday d)) days "")))
    /\ (year d < 1000 ->
        out !! "transaction_date" = Some VNone
        /\ out !! "transaction_day" = Some VNone)
    /\ out !! "currency" = Some (VStr cur) /\ cur ∈ VALID_CURRENCIES
    /\ out !! "is_crossborder" = Some (VBool (negb (String.eqb cur "IDR"))).
Proof.
  apply (pipeline_features sample_repr sample_log valid_transaction
           validated_transaction cleaned_transaction).
  - vm_compute. reflexivity.
  - vm_compute. reflexivity.
Defined.

Lemma optional_checks_iff_cleaned_witness :
  (validate_direction (VStr " debit ") = true
   <-> exists u, clean_field sample_repr "direction" (VStr " debit ")
                 = Ok (VStr u)
                 /\ u ∈ VALID_DIRECTIONS)
  /\ (validate_account_type (VStr " debit ") = true
      <-> exists u, clean_field sample_repr "account_type" (VStr " debit ")
                    = Ok (VStr u)
                    /\ u ∈ VALID_ACCOUNT_TYPES).
Proof.
  apply (optional_checks_iff_cleaned sample_repr " debit "). discriminate.
Defined.
